(** * A model of the MetroCuadrado listing scraper (scraper.py)

    The scraper drives a browser through Selenium, walks a bounded number of
    search-result pages, collects the detail links of each page, and turns the
    JSON payload embedded in every detail page into a flat record.

    The development has three layers:
    - [Py]: the fragment of Python values and string operations the program
      uses on the parsed payload (dict [get], truthiness, slicing, [replace],
      [join]), with exceptions as an explicit result type;
    - [Scraper]: the functions of scraper.py over an abstract browser, written
      in a state-and-exception monad that also records everything the
      program prints and every request it sends to its collaborators;
    - [Sim]: a small deterministic browser over a described site, used to run
      the functions on concrete inputs. *)

From Stdlib Require Import ZArith String Ascii List Lia.
From stdpp Require Import base option list gmap sets strings pretty.

Set Warnings "-register-all".

Local Open Scope string_scope.
Local Open Scope Z_scope.

(** ** Exceptions and results *)

(** The exception classes the program names or can meet.  Every one of them
    derives from Python's [Exception], so [except Exception] catches each.
    [KeyboardInterrupt] and [SystemExit], which only a bare [except:] would
    catch, are outside the model. *)
Inductive exn_class :=
| TimeoutException
| NoSuchElementException
| WebDriverException
| JSONDecodeError
| AttributeError
| TypeError
| OSError
| OtherException.

Record exn := Exn { exn_cls : exn_class; exn_msg : string }.

(** What evaluating a Python expression or statement yields. *)
Inductive outcome (A : Type) :=
| Ok (a : A)
| Raise (e : exn).
Arguments Ok {A} a.
Arguments Raise {A} e.

Definition exn_class_eqb (a b : exn_class) : bool :=
  match a, b with
  | TimeoutException, TimeoutException
  | NoSuchElementException, NoSuchElementException
  | WebDriverException, WebDriverException
  | JSONDecodeError, JSONDecodeError
  | AttributeError, AttributeError
  | TypeError, TypeError
  | OSError, OSError
  | OtherException, OtherException => true
  | _, _ => false
  end.

#[export] Instance outcome_ret : MRet outcome := fun _ a => Ok a.
#[export] Instance outcome_bind : MBind outcome := fun _ _ f x =>
  match x with
  | Ok a => f a
  | Raise e => Raise e
  end.

Definition is_ok {A} (r : outcome A) : bool :=
  match r with Ok _ => true | Raise _ => false end.

(** ** Python values and the operations used on the payload *)

Module Py.

(** The values [json.loads] produces.  A dict is kept as its items in
    insertion order; a float by its numerator and denominator, of which only
    the test for zero is ever used (the program passes numbers through).
    [NaN] and the infinities, which [json.loads] also accepts, are left
    out; they are true like any other non-zero number. *)
Inductive pyval :=
| PNone
| PBool (b : bool)
| PInt (n : Z)
| PFloat (num : Z) (den : positive)
| PStr (s : string)
| PList (l : list pyval)
| PDict (d : list (string * pyval)).

(** [bool(v)], as taken by [if v] and [not v]. *)
Definition truthy (v : pyval) : bool :=
  match v with
  | PNone => false
  | PBool b => b
  | PInt n => negb (n =? 0)
  | PFloat n _ => negb (n =? 0)
  | PStr s => match s with EmptyString => false | String _ _ => true end
  | PList l => match l with [] => false | _ :: _ => true end
  | PDict d => match d with [] => false | _ :: _ => true end
  end.

(** The item stored under [k], if any. *)
Fixpoint dict_lookup (k : string) (d : list (string * pyval)) : option pyval :=
  match d with
  | [] => None
  | (k', v) :: rest => if String.eqb k k' then Some v else dict_lookup k rest
  end.

(** The item stored under [k], or [dflt] when there is none. *)
Definition item (k : string) (dflt : pyval) (d : list (string * pyval)) : pyval :=
  default dflt (dict_lookup k d).

(** [v.get(k, dflt)]: only a dict has the method. *)
Definition py_get (v : pyval) (k : string) (dflt : pyval) : outcome pyval :=
  match v with
  | PDict d => Ok (default dflt (dict_lookup k d))
  | _ => Raise (Exn AttributeError "object has no attribute 'get'")
  end.

(** The first [n] characters of a string: [s[:n]]. *)
Fixpoint str_take (n : nat) (s : string) : string :=
  match n, s with
  | O, _ => EmptyString
  | S _, EmptyString => EmptyString
  | S m, String c rest => String c (str_take m rest)
  end.

(** [v[:n]]: strings and lists can be sliced, nothing else in a payload. *)
Definition py_slice_to (n : nat) (v : pyval) : outcome pyval :=
  match v with
  | PStr s => Ok (PStr (str_take n s))
  | PList l => Ok (PList (take n l))
  | _ => Raise (Exn TypeError "object is not subscriptable")
  end.

(** [s.replace(old, new)] for one-character [old] and [new]. *)
Fixpoint replace_char (old new : ascii) (s : string) : string :=
  match s with
  | EmptyString => EmptyString
  | String c rest =>
      String (if Ascii.eqb c old then new else c) (replace_char old new rest)
  end.

(** [v.replace(old, new)]: only a string has the method. *)
Definition py_replace (old new : ascii) (v : pyval) : outcome string :=
  match v with
  | PStr s => Ok (replace_char old new s)
  | _ => Raise (Exn AttributeError "object has no attribute 'replace'")
  end.

(** The items a [for] loop or [join] draws from [v]. *)
Definition py_iter (v : pyval) : outcome (list pyval) :=
  match v with
  | PList l => Ok l
  | PStr s => Ok (map (fun c => PStr (String c EmptyString)) (list_ascii_of_string s))
  | PDict d => Ok (map (fun kv => PStr (fst kv)) d)
  | _ => Raise (Exn TypeError "object is not iterable")
  end.

(** [join] accepts strings only. *)
Fixpoint all_str (l : list pyval) : outcome (list string) :=
  match l with
  | [] => Ok []
  | PStr s :: rest => strs ← all_str rest; Ok (s :: strs)
  | _ :: _ => Raise (Exn TypeError "sequence item: expected str instance")
  end.

(** [sep.join(v)]. *)
Definition py_join (sep : string) (v : pyval) : outcome string :=
  items ← py_iter v;
  strs ← all_str items;
  Ok (String.concat sep strs).

(** [needle in hay] on strings. *)
Fixpoint contains (needle hay : string) : bool :=
  String.prefix needle hay ||
  match hay with
  | EmptyString => false
  | String _ rest => contains needle rest
  end.

(** The characters of a string, in order. *)
Definition chars (s : string) : list ascii := list_ascii_of_string s.

Definition newline : ascii := Ascii.ascii_of_nat 10.
Definition space : ascii := Ascii.ascii_of_nat 32.

End Py.
Export Py.

(** ** The program *)

Module Scraper.

(** Configuration constants of the module. *)
Record config := {
  SEARCH_URL : string;
  MAX_PAGES : Z;
  OUTPUT_FILE : string;
  HEADLESS : bool;
  DEBUG_DIR : string
}.

(** The values scraper.py is shipped with. *)
Definition shipped : config := {|
  SEARCH_URL := "https://www.metrocuadrado.com/apartamento-apartaestudio-casa/venta/nuevo/bogota?search=form";
  MAX_PAGES := 3;
  OUTPUT_FILE := "metrocuadrado_properties.csv";
  HEADLESS := true;
  DEBUG_DIR := "debug_screenshots"
|}.

(** A scraped property: the dict literal of [scrape_property_page], as its
    items in insertion order. *)
Definition record : Type := list (string * pyval).

(** *** Requests to the collaborators *)

Inductive By := XPATH | CSS_SELECTOR | TAG_NAME.

Inductive expected :=
| visibility_of_element_located
| element_to_be_clickable
| presence_of_element_located.

(** One constructor per operation the program asks of the browser session,
    the file system or the clock.  [E] is the type of element handles. *)
Inductive call (E : Type) :=
| StartChrome (arguments : list string)
| Get (url : string)
| WaitUntil (timeout : Z) (cond : expected) (b : By) (locator : string)
| FindElement (parent : option E) (b : By) (locator : string)
| FindElements (b : By) (locator : string)
| GetAttribute (e : E) (name : string)
| Click (e : E)
| ExecuteScript (script : string) (args : list E)
| SaveScreenshot (file : string)
| PageSource
| Quit
| WriteFile (path contents : string)
| WriteCsv (path : string) (fieldnames : list string) (rows : list record)
| Strftime (format : string).
Arguments StartChrome {E}. Arguments Get {E}. Arguments WaitUntil {E}.
Arguments FindElement {E}. Arguments FindElements {E}.
Arguments GetAttribute {E}. Arguments Click {E}. Arguments ExecuteScript {E}.
Arguments SaveScreenshot {E}. Arguments PageSource {E}. Arguments Quit {E}.
Arguments WriteFile {E}. Arguments WriteCsv {E}. Arguments Strftime {E}.

(** What a collaborator hands back, as kept in the log. *)
Inductive value (E : Type) :=
| VUnit
| VBool (b : bool)
| VText (s : string)
| VAttr (a : option string)
| VElem (e : E)
| VElems (l : list E).
Arguments VUnit {E}. Arguments VBool {E}. Arguments VText {E}.
Arguments VAttr {E}. Arguments VElem {E}. Arguments VElems {E}.

(** The card-detection methods, as named in the progress messages. *)
Inductive method := DataTestid | ClassBased | GenericCard.

(** One constructor per [print] of the program, with the values it
    interpolates. *)
Inductive message :=
| SavedScreenshot (file : string)
| ScrapingProperty (url : string)
| NoListingData
| ErrorScrapingProperty (msg : string)
| NavigatingToSearch (url : string)
| AcceptedCookies
| NoCookieDialog
| Banner
| ProcessingPage (page limit : Z)
| Scrolling
| LocatingCards
| FoundListings (m : method) (n : nat)
| NoListings (m : method)
| NoCardsFound
| SavedPageSource (path : string)
| ErrorExtractingLink (msg : string)
| FoundUniqueUrls (n : nat)
| NoValidLinks
| ProcessingProperty (i : Z) (n : nat) (url70 : string)
| AttemptingNextPage
| NextButtonNotFound
| ErrorNavigating (msg : string)
| ErrorProcessingPage (page : Z) (msg : string)
| Starting
| Saved (n : nat) (file : string)
| NoDataScraped
| MainError (msg : string)
| BrowserClosed.

(** Everything observable of a run, oldest first. *)
Inductive event (E : Type) :=
| Print (m : message)
| Call (c : call E) (r : outcome (value E)).
Arguments Print {E}. Arguments Call {E}.

(** The collaborators.  [W] is their joint state: the browser session with
    the site behind it, the file system and the clock.  Every operation of
    the session and of the file system may raise; reading the clock and
    printing may not.  [json_loads] is [json.loads], a function of the text
    alone. *)
Record Browser (W E : Type) := {
  start_chrome : list string -> W -> W * outcome unit;
  navigate : string -> W -> W * outcome unit;
  wait_until : Z -> expected -> By -> string -> W -> W * outcome E;
  find_element : option E -> By -> string -> W -> W * outcome E;
  find_elements : By -> string -> W -> W * outcome (list E);
  get_attribute : E -> string -> W -> W * outcome (option string);
  click : E -> W -> W * outcome unit;
  execute_script : string -> list E -> W -> W * outcome unit;
  save_screenshot : string -> W -> W * outcome bool;
  page_source : W -> W * outcome string;
  quit : W -> W * outcome unit;
  write_file : string -> string -> W -> W * outcome unit;
  write_csv : string -> list string -> list record -> W -> W * outcome unit;
  strftime : string -> W -> W * string;
  json_loads : string -> outcome pyval
}.
Arguments start_chrome {W E}. Arguments navigate {W E}.
Arguments wait_until {W E}. Arguments find_element {W E}.
Arguments find_elements {W E}. Arguments get_attribute {W E}.
Arguments click {W E}. Arguments execute_script {W E}.
Arguments save_screenshot {W E}. Arguments page_source {W E}.
Arguments quit {W E}. Arguments write_file {W E}. Arguments write_csv {W E}.
Arguments strftime {W E}. Arguments json_loads {W E}.

(** *** Program state and the monad *)

(** The collaborators' state, the log, and the two local variables of
    [scrape_search_results] that are updated in place. *)
Record state (W E : Type) := State {
  world : W;
  out : list (event E);
  properties : list record;
  page : Z
}.
Arguments State {W E}. Arguments world {W E}. Arguments out {W E}.
Arguments properties {W E}. Arguments page {W E}.

(** Whether the body of the [while] loop ended in [break]. *)
Inductive control := Continue | Break.

Definition outcome_map {A B} (f : A -> B) (r : outcome A) : outcome B :=
  match r with
  | Ok a => Ok (f a)
  | Raise e => Raise e
  end.

Section Program.

Context {W E : Type}.
Variable drv : Browser W E.
Variable cfg : config.

(** A statement: from a state to the state it leaves and what it yields.
    The state survives a raise, as assignments and appends do in Python. *)
Definition M (A : Type) : Type := state W E -> state W E * outcome A.

#[export] Instance M_ret : MRet M := fun _ a s => (s, Ok a).
#[export] Instance M_bind : MBind M := fun _ _ k c s =>
  match c s with
  | (s', Ok a) => k a s'
  | (s', Raise e) => (s', Raise e)
  end.

Definition lift {A} (r : outcome A) : M A := fun s => (s, r).

(** [try: c  except Exception as e: h e] *)
Definition try_catch {A} (c : M A) (h : exn -> M A) : M A := fun s =>
  match c s with
  | (s', Ok a) => (s', Ok a)
  | (s', Raise e) => h e s'
  end.

(** [try: c  except cls as e: h e] *)
Definition try_except {A} (cls : exn_class) (c : M A) (h : exn -> M A) : M A :=
  fun s =>
  match c s with
  | (s', Ok a) => (s', Ok a)
  | (s', Raise e) =>
      if exn_class_eqb (exn_cls e) cls then h e s' else (s', Raise e)
  end.

(** [try: c  finally: f] *)
Definition try_finally {A} (c : M A) (f : M unit) : M A := fun s =>
  let '(s1, r) := c s in
  match f s1 with
  | (s2, Ok _) => (s2, r)
  | (s2, Raise e) => (s2, Raise e)
  end.

Definition emit (e : event E) : M unit := fun s =>
  (State (world s) (out s ++ [e])%list (properties s) (page s), Ok tt).

Definition print (m : message) : M unit := emit (Print m).

(** Send one request, log it with its answer. *)
Definition perform {A} (c : call E) (inj : A -> value E)
    (op : W -> W * outcome A) : M A := fun s =>
  let '(w, r) := op (world s) in
  (State w (out s ++ [Call c (outcome_map inj r)])%list (properties s) (page s), r).

Definition get_page : M Z := fun s => (s, Ok (page s)).
Definition set_page (p : Z) : M unit := fun s =>
  (State (world s) (out s) (properties s) p, Ok tt).
Definition get_properties : M (list record) := fun s => (s, Ok (properties s)).
Definition set_properties (l : list record) : M unit := fun s =>
  (State (world s) (out s) l (page s), Ok tt).

(** [time.sleep]: nothing the model observes. *)
Definition sleep (seconds : Z) : M unit := mret tt.

Definition unit_value (_ : unit) : value E := VUnit.

Definition driver_get (url : string) : M unit :=
  perform (Get url) unit_value (navigate drv url).
Definition driver_wait (timeout : Z) (cond : expected) (b : By) (loc : string) : M E :=
  perform (WaitUntil timeout cond b loc) VElem (wait_until drv timeout cond b loc).
Definition driver_find_element (b : By) (loc : string) : M E :=
  perform (FindElement None b loc) VElem (find_element drv None b loc).
Definition element_find_element (parent : E) (b : By) (loc : string) : M E :=
  perform (FindElement (Some parent) b loc) VElem (find_element drv (Some parent) b loc).
Definition driver_find_elements (b : By) (loc : string) : M (list E) :=
  perform (FindElements b loc) VElems (find_elements drv b loc).
Definition element_get_attribute (e : E) (name : string) : M (option string) :=
  perform (GetAttribute e name) VAttr (get_attribute drv e name).
Definition element_click (e : E) : M unit :=
  perform (Click e) unit_value (click drv e).
Definition driver_execute_script (script : string) (args : list E) : M unit :=
  perform (ExecuteScript script args) unit_value (execute_script drv script args).
Definition driver_save_screenshot (file : string) : M bool :=
  perform (SaveScreenshot file) VBool (save_screenshot drv file).
Definition driver_page_source : M string :=
  perform PageSource VText (page_source drv).
Definition driver_quit : M unit :=
  perform Quit unit_value (quit drv).
Definition file_write (path contents : string) : M unit :=
  perform (WriteFile path contents) unit_value (write_file drv path contents).
Definition csv_write (path : string) (fieldnames : list string) (rows : list record) : M unit :=
  perform (WriteCsv path fieldnames rows) unit_value (write_csv drv path fieldnames rows).
Definition time_strftime (format : string) : M string :=
  perform (Strftime format) VText
    (fun w => let '(w', t) := strftime drv format w in (w', Ok t)).

(** [str(n)] for the page number. *)
Definition str_of_Z (n : Z) : string := pretty n.

(** *** init_driver (lines 26-53) *)

(** Installing the driver and starting Chrome is one request; the two
    experimental options go with it and are not listed. *)

Definition chrome_arguments : list string :=
  ((if HEADLESS cfg then ["--headless=new"] else []) ++
  ["--disable-blink-features=AutomationControlled";
   "--disable-infobars";
   "--disable-dev-shm-usage";
   "--no-sandbox";
   "--window-size=1920,1080";
   "--ignore-certificate-errors";
   "--allow-running-insecure-content";
   "user-agent=Mozilla/5.0 (Windows NT 10.0; Win64; x64) AppleWebKit/537.36 (KHTML, like Gecko) Chrome/125.0.0.0 Safari/537.36"])%list.

Definition init_driver : M unit :=
  perform (StartChrome chrome_arguments) unit_value (start_chrome drv chrome_arguments);;
  driver_execute_script
    "Object.defineProperty(navigator, 'webdriver', {get: () => undefined})" [].

(** *** take_screenshot (lines 56-62) *)

Definition screenshot_file (name timestamp : string) : string :=
  DEBUG_DIR cfg +:+ "/" +:+ name +:+ "_" +:+ timestamp +:+ ".png".

Definition take_screenshot (name : string) : M string :=
  timestamp ← time_strftime "%Y%m%d-%H%M%S";
  let filename := screenshot_file name timestamp in
  driver_save_screenshot filename;;
  print (SavedScreenshot filename);;
  mret filename.

(** *** scrape_property_page (lines 65-129) *)

(** The comprehension of line 98: the condition is evaluated first, then
    the element expression. *)
Fixpoint image_urls (imgs : list pyval) : outcome (list pyval) :=
  match imgs with
  | [] => Ok []
  | img :: rest =>
      c ← py_get img "url" PNone;
      if truthy c then
        u ← py_get img "url" (PStr "");
        us ← image_urls rest;
        Ok (u :: us)
      else image_urls rest
  end.

(** Lines 96-122: every entry of the dict literal but the time stamp, which
    has to ask the clock.  The entries are evaluated in the order written. *)
Definition property_fields (url : string) (listing : pyval) : outcome record :=
  location ← py_get listing "location" (PDict []);
  broker ← py_get listing "broker" (PDict []);
  images_src ← py_get listing "images" (PList []);
  imgs ← py_iter images_src;
  images ← image_urls imgs;
  title ← py_get listing "title" (PStr "");
  price_dict ← py_get listing "price" (PDict []);
  price ← py_get price_dict "value" (PStr "");
  price_dict' ← py_get listing "price" (PDict []);
  currency ← py_get price_dict' "currency" (PStr "COP");
  address ← py_get location "formattedAddress" (PStr "");
  neighborhood_dict ← py_get location "neighborhood" (PDict []);
  neighborhood ← py_get neighborhood_dict "name" (PStr "");
  city_dict ← py_get location "city" (PDict []);
  city ← py_get city_dict "name" (PStr "");
  property_type ← py_get listing "propertyType" (PStr "");
  area ← py_get listing "area" (PStr "");
  rooms ← py_get listing "rooms" (PStr "");
  bathrooms ← py_get listing "bathrooms" (PStr "");
  parking ← py_get listing "parking" (PStr "");
  stratum ← py_get listing "stratum" (PStr "");
  status ← py_get listing "status" (PStr "");
  description_src ← py_get listing "description" (PStr "");
  description_cut ← py_slice_to 500 description_src;
  description ← py_replace newline space description_cut;
  features_src ← py_get listing "features" (PList []);
  features ← py_join ", " features_src;
  broker_name ← py_get broker "name" (PStr "");
  broker_phone ← py_get broker "phone" (PStr "");
  images_joined ← py_join "; " (PList images);
  virtual_tour ← py_get listing "virtualTourUrl" (PStr "");
  property_id ← py_get listing "id" (PStr "");
  Ok [ ("url", PStr url);
       ("title", title);
       ("price", price);
       ("currency", currency);
       ("location", address);
       ("neighborhood", neighborhood);
       ("city", city);
       ("property_type", property_type);
       ("area", area);
       ("rooms", rooms);
       ("bathrooms", bathrooms);
       ("parking", parking);
       ("stratum", stratum);
       ("status", status);
       ("description", PStr (description +:+ "..."));
       ("features", PStr features);
       ("broker", broker_name);
       ("broker_phone", broker_phone);
       ("images", PStr images_joined);
       ("virtual_tour", virtual_tour);
       ("property_id", property_id) ].

(** [json.loads(text)] where [text] may be [None]. *)
Definition loads (text : option string) : outcome pyval :=
  match text with
  | Some t => json_loads drv t
  | None => Raise (Exn TypeError "the JSON object must be str, bytes or bytearray, not NoneType")
  end.

(** Lines 87-88. *)
Definition listing_of (json_data : pyval) : outcome pyval :=
  props ← py_get json_data "props" (PDict []);
  page_props ← py_get props "pageProps" (PDict []);
  py_get page_props "listing" (PDict []).

Definition scrape_property_page (url : string) : M (option record) :=
  print (ScrapingProperty url);;
  driver_get url;;
  try_catch
    (try_except TimeoutException
       (driver_wait 15 visibility_of_element_located XPATH
          "//h1[@data-testid='title-listing-detail']";; mret tt)
       (fun _ =>
          driver_wait 15 visibility_of_element_located XPATH
            "//div[@class='listing-detail']";; mret tt);;
     script_element ← driver_find_element XPATH "//script[@id='__NEXT_DATA__']";
     text ← element_get_attribute script_element "textContent";
     json_data ← lift (loads text);
     listing ← lift (listing_of json_data);
     if negb (truthy listing) then
       print NoListingData;;
       take_screenshot "no_listing_data";;
       mret None
     else
       fields ← lift (property_fields url listing);
       now ← time_strftime "%Y-%m-%d %H:%M:%S";
       mret (Some (fields ++ [("scraped_at", PStr now)])%list))
    (fun e =>
       print (ErrorScrapingProperty (exn_msg e));;
       take_screenshot "property_error";;
       mret None).

(** *** scrape_search_results (lines 132-281) *)

Definition SEL_TESTID : string := "div[data-testid='m2-card-listings-container']".
Definition SEL_CLASS : string := "div.m2-card-listing".
Definition SEL_GENERIC : string := "div[class*='card']".

(** Lines 162-167. *)
Definition scroll_page : M unit :=
  print Scrolling;;
  driver_execute_script "window.scrollTo(0, document.body.scrollHeight);" [];;
  sleep 2;;
  driver_execute_script "window.scrollTo(0, document.body.scrollHeight);" [];;
  sleep 2;;
  page ← get_page;
  take_screenshot ("after_scroll_page_" +:+ str_of_Z page);;
  mret tt.

(** One detection method: [cards] keeps its previous value, the empty
    list, when the query raises [NoSuchElementException]. *)
Definition try_method (m : method) (selector : string) : M (list E) :=
  try_except NoSuchElementException
    (cards ← driver_find_elements CSS_SELECTOR selector;
     print (FoundListings m (length cards));;
     mret cards)
    (fun _ => print (NoListings m);; mret []).

Definition is_empty {A} (l : list A) : bool :=
  match l with [] => true | _ :: _ => false end.

(** Lines 169-194. *)
Definition find_cards : M (list E) :=
  print LocatingCards;;
  cards ← try_method DataTestid SEL_TESTID;
  cards ← (if is_empty cards then try_method ClassBased SEL_CLASS else mret cards);
  cards ← (if is_empty cards then try_method GenericCard SEL_GENERIC else mret cards);
  mret cards.

(** Lines 197-203, up to the [break]. *)
Definition report_no_cards : M unit :=
  print NoCardsFound;;
  page_source ← driver_page_source;
  page ← get_page;
  let path := DEBUG_DIR cfg +:+ "/page_" +:+ str_of_Z page +:+ "_source.html" in
  file_write path page_source;;
  print (SavedPageSource path);;
  take_screenshot ("no_cards_page_" +:+ str_of_Z page);;
  mret tt.

(** Line 218: [href and ("/inmueble/" in href or "/proyecto/" in href)]. *)
Definition accepted (href : option string) : bool :=
  match href with
  | None => false
  | Some h => truthy (PStr h) && (contains "/inmueble/" h || contains "/proyecto/" h)
  end.

(** Lines 209-222, the body of the loop over the cards: the hrefs it
    appends to [links]. *)
Definition card_link (card : E) : M (list string) :=
  try_catch
    (link ← try_except NoSuchElementException
              (element_find_element card TAG_NAME "a")
              (fun _ => element_find_element card CSS_SELECTOR "a");
     href ← element_get_attribute link "href";
     mret (if accepted href then option_list href else []))
    (fun e => print (ErrorExtractingLink (exn_msg e));; mret []).

(** Lines 207-222: the hrefs appended to [links], in card order. *)
Fixpoint collect_links (cards : list E) : M (list string) :=
  match cards with
  | [] => mret []
  | card :: rest =>
      found ← card_link card;
      more ← collect_links rest;
      mret (found ++ more)%list
  end.

(** Line 225: [list(set(links))]. *)
Definition unique (links : list string) : list string :=
  elements (list_to_set links : gset string).

Definition append_property (r : record) : M unit :=
  props ← get_properties;
  set_properties (props ++ [r])%list.

(** Lines 234-239. *)
Fixpoint scrape_each (i : Z) (n : nat) (links : list string) : M unit :=
  match links with
  | [] => mret tt
  | url :: rest =>
      print (ProcessingProperty i n (str_take 70 url));;
      property_data ← scrape_property_page url;
      match property_data with
      | Some r => if truthy (PDict r) then append_property r else mret tt
      | None => mret tt
      end;;
      sleep 2;;
      scrape_each (i + 1) n rest
  end.

(** A [WebElement] defines neither [__bool__] nor [__len__]: it is true. *)
Definition element_truthy (e : E) : bool := true.

Definition NEXT_BY_LABEL : string := "//a[@aria-label='Siguiente pÃ¡gina']".
Definition NEXT_BY_CLASS : string := "//a[contains(@class, 'm2-pagination__next')]".
Definition NEXT_BY_TEXT : string := "//a[contains(text(), 'Siguiente')]".

(** Lines 246-252. *)
Definition find_next_button : M E :=
  try_catch
    (driver_find_element XPATH NEXT_BY_LABEL)
    (fun _ =>
       try_catch
         (driver_find_element XPATH NEXT_BY_CLASS)
         (fun _ => driver_find_element XPATH NEXT_BY_TEXT)).

(** Lines 241-274. *)
Definition next_page : M control :=
  page ← get_page;
  if page <? MAX_PAGES cfg then
    print AttemptingNextPage;;
    try_catch
      (next_button ← find_next_button;
       if element_truthy next_button then
         driver_execute_script "arguments[0].scrollIntoView();" [next_button];;
         driver_execute_script "arguments[0].click();" [next_button];;
         driver_wait 15 presence_of_element_located XPATH
           "//div[contains(@class, 'm2-card-listing') or @data-testid='m2-card-listings-container']";;
         sleep 3;;
         page ← get_page;
         set_page (page + 1);;
         page ← get_page;
         take_screenshot ("after_navigation_page_" +:+ str_of_Z page);;
         mret Continue
       else
         print NextButtonNotFound;;
         mret Break)
      (fun e =>
         print (ErrorNavigating (exn_msg e));;
         take_screenshot "next_page_error";;
         mret Break)
  else mret Break.

(** Lines 158-274: what the [try] of the loop body encloses. *)
Definition page_body : M control :=
  page ← get_page;
  print Banner;;
  print (ProcessingPage page (MAX_PAGES cfg));;
  print Banner;;
  scroll_page;;
  cards ← find_cards;
  if is_empty cards then
    report_no_cards;;
    mret Break
  else
    links ← collect_links cards;
    let links := unique links in
    print (FoundUniqueUrls (length links));;
    if is_empty links then
      print NoValidLinks;;
      take_screenshot "no_valid_links";;
      mret Break
    else
      scrape_each 1 (length links) links;;
      next_page.

(** Lines 276-279. *)
Definition page_error (e : exn) : M control :=
  page ← get_page;
  print (ErrorProcessingPage page (exn_msg e));;
  take_screenshot ("page_" +:+ str_of_Z page +:+ "_error");;
  mret Break.

(** Lines 157-279: the body of the [while] loop. *)
Definition process_page : M control := try_catch page_body page_error.

(** Line 156: [while page <= MAX_PAGES].  The result tells whether the loop
    was left; it is [false] when another round is due and [fuel] is used
    up. *)
Fixpoint pagination (fuel : nat) : M bool :=
  page ← get_page;
  if page <=? MAX_PAGES cfg then
    match fuel with
    | O => mret false
    | S fuel' =>
        c ← process_page;
        match c with
        | Break => mret true
        | Continue => pagination fuel'
        end
    end
  else mret true.

(** Lines 141-151. *)
Definition accept_cookies : M unit :=
  try_catch
    (accept_button ← driver_wait 5 element_to_be_clickable XPATH
                       "//button[contains(., 'Aceptar todo')]";
     element_click accept_button;;
     print AcceptedCookies;;
     sleep 1;;
     take_screenshot "after_cookies";;
     mret tt)
    (fun _ => print NoCookieDialog).

(** [None] stands for a loop still running when [fuel] is used up. *)
Definition scrape_search_results (fuel : nat) : M (option (list record)) :=
  print (NavigatingToSearch (SEARCH_URL cfg));;
  driver_get (SEARCH_URL cfg);;
  sleep 3;;
  take_screenshot "initial_page";;
  accept_cookies;;
  set_properties [];;
  set_page 1;;
  finished ← pagination fuel;
  properties ← get_properties;
  mret (if finished : bool then Some properties else None).

(** *** main (lines 284-307) *)

(** [results[0].keys()]. *)
Definition fieldnames_of (results : list record) : list string :=
  match results with
  | [] => []
  | first :: _ => map fst first
  end.

Definition main (fuel : nat) : M (option unit) :=
  print Starting;;
  init_driver;;
  try_finally
    (try_catch
       (results ← scrape_search_results fuel;
        match results return M (option unit) with
        | None => mret None
        | Some results =>
            (if negb (is_empty results) then
               csv_write (OUTPUT_FILE cfg) (fieldnames_of results) results;;
               print (Saved (length results) (OUTPUT_FILE cfg))
             else print NoDataScraped);;
            mret (Some tt)
        end)
       (fun e =>
          print (MainError (exn_msg e));;
          take_screenshot "main_error";;
          mret (Some tt)))
    (driver_quit;; print BrowserClosed).

End Program.

(** *** Reading the log *)

Section Observations.

Context {W E : Type}.
Variable drv : Browser W E.
Variable cfg : config.

(** The screenshot collaborator never raises. *)
Definition snapshot_safe : Prop :=
  forall file w, exists w' b, save_screenshot drv file w = (w', Ok b).

(** [file] is a screenshot taken under one of [names]. *)
Definition snapshot_of (names : list string) (file : string) : Prop :=
  exists name timestamp, In name names /\ file = screenshot_file cfg name timestamp.

(** The log [d] shows the data script being read, with [text] as answer. *)
Definition payload_read (d : list (event E)) (text : option string) : Prop :=
  exists el, In (Call (GetAttribute el "textContent") (Ok (VAttr text))) d.


(** The page numbers announced in a log, in order. *)
Definition pages_of (d : list (event E)) : list Z :=
  omap (fun e => match e with
                 | Print (ProcessingPage p _) => Some p
                 | _ => None
                 end) d.

Definition page_event (e : event E) : bool :=
  match e with
  | Print (ProcessingPage _ _) => true
  | _ => false
  end.

(** The messages that announce the three early stops of the walk: no
    cards, no valid links, next page not reached. *)
Definition stop_marker (e : event E) : bool :=
  match e with
  | Print NoCardsFound | Print NoValidLinks | Print (ErrorNavigating _) => true
  | _ => false
  end.

(** Not a page announcement. *)
Definition calm (e : event E) : bool := negb (page_event e).

(** No page is announced after the first stop marker of the log. *)
Fixpoint quiet_after_stop (d : list (event E)) : bool :=
  match d with
  | [] => true
  | e :: rest => if stop_marker e then forallb calm rest else quiet_after_stop rest
  end.

(** The requests whose failure means the next page is not reached: the
    last locator of the next-page control, the two scripts run on the
    control, the wait for the new listings. *)
Definition navigation_step (c : call E) : bool :=
  match c with
  | FindElement None XPATH locator => String.eqb locator NEXT_BY_TEXT
  | ExecuteScript _ (_ :: _) => true
  | WaitUntil _ presence_of_element_located _ _ => true
  | _ => false
  end.

Definition next_page_failed (d : list (event E)) : Prop :=
  exists c e, In (Call c (Raise e)) d /\ navigation_step c = true.

(** Neither a page announcement nor a stop marker. *)
Definition low (e : event E) : bool := negb (page_event e) && negb (stop_marker e).

(** From [s] to [s']: the log only grows, by events satisfying [P]; the
    records only grow; the page number stays. *)
Definition extends (P : event E -> bool) (s s' : state W E) : Prop :=
  page s' = page s /\
  (exists more, properties s' = (properties s ++ more)%list) /\
  exists d, out s' = (out s ++ d)%list /\ Forall (fun e => P e = true) d.

(** The state in which the body of the loop has announced its page. *)
Definition announced (s : state W E) : state W E :=
  State (world s)
    (((out s ++ [Print Banner]) ++ [Print (ProcessingPage (page s) (MAX_PAGES cfg))])
       ++ [Print Banner])%list
    (properties s) (page s).

(** What one round of the loop body does to the state. *)
Definition round (s s' : state W E) (r : outcome control) : Prop :=
  (exists more, properties s' = (properties s ++ more)%list) /\
  (page s' = page s \/ (page s' = page s + 1 /\ page s < MAX_PAGES cfg)) /\
  exists d,
    out s' = (out s ++ Print Banner :: Print (ProcessingPage (page s) (MAX_PAGES cfg)) :: d)%list /\
    Forall (fun e => calm e = true) d /\
    (r = Ok Continue ->
       page s' = page s + 1 /\ page s < MAX_PAGES cfg /\ Forall (fun e => low e = true) d).

(** The visits that produced no record, as counted from the log. *)
Definition failures (d : list (event E)) : nat :=
  length (List.filter (fun e => match e with
                                | Print NoListingData
                                | Print (ErrorScrapingProperty _) => true
                                | _ => false
                                end) d).

(** The links found on the pages of a log. *)
Definition links_discovered (d : list (event E)) : nat :=
  list_sum (omap (fun e => match e with
                           | Print (FoundUniqueUrls n) => Some n
                           | _ => None
                           end) d).

(** What [main] itself prints and requests. *)
Definition own_report (d : list (event E)) : list (event E) :=
  List.filter (fun e => match e with
                        | Print Starting | Print (Saved _ _) | Print NoDataScraped
                        | Print (MainError _) | Print BrowserClosed
                        | Call (StartChrome _) _ | Call (WriteCsv _ _ _) _
                        | Call Quit _ => true
                        | _ => false
                        end) d.

(** The card queries of a log with their answers, in order. *)
Definition queries (d : list (event E)) : list (string * outcome (value E)) :=
  omap (fun e => match e with
                 | Call (FindElements CSS_SELECTOR selector) r => Some (selector, r)
                 | _ => None
                 end) d.

(** A card query that left [cards] empty. *)
Definition yields_none (r : outcome (value E)) : Prop :=
  r = Ok (VElems []) \/
  exists e, r = Raise e /\ exn_cls e = NoSuchElementException.

End Observations.

(** The three detection methods in the order the program tries them. *)
Definition CARD_SELECTORS : list string := [SEL_TESTID; SEL_CLASS; SEL_GENERIC].

(** [needle] occurs in [hay]. *)
Definition occurs_in (needle hay : string) : Prop :=
  exists before after, hay = before +:+ needle +:+ after.

(** The two accepted path patterns. *)
Definition accepted_url (url : string) : Prop :=
  occurs_in "/inmueble/" url \/ occurs_in "/proyecto/" url.

(** The keys of a record, in the order of the dict literal. *)
Definition FIELDS : list string :=
  ["url"; "title"; "price"; "currency"; "location"; "neighborhood"; "city";
   "property_type"; "area"; "rooms"; "bathrooms"; "parking"; "stratum";
   "status"; "description"; "features"; "broker"; "broker_phone"; "images";
   "virtual_tour"; "property_id"; "scraped_at"].

(** For each field taken from the payload: the keys that lead to it in
    the listing, and the string the field holds when one of them is not
    there. *)
Definition SOURCES : list (string * list string * string) :=
  [("title", ["title"], "");
   ("price", ["price"; "value"], "");
   ("currency", ["price"; "currency"], "COP");
   ("location", ["location"; "formattedAddress"], "");
   ("neighborhood", ["location"; "neighborhood"; "name"], "");
   ("city", ["location"; "city"; "name"], "");
   ("property_type", ["propertyType"], "");
   ("area", ["area"], "");
   ("rooms", ["rooms"], "");
   ("bathrooms", ["bathrooms"], "");
   ("parking", ["parking"], "");
   ("stratum", ["stratum"], "");
   ("status", ["status"], "");
   ("description", ["description"], "...");
   ("features", ["features"], "");
   ("broker", ["broker"; "name"], "");
   ("broker_phone", ["broker"; "phone"], "");
   ("images", ["images"], "");
   ("virtual_tour", ["virtualTourUrl"], "");
   ("property_id", ["id"], "")].

(** Some key of [path] is missing from the dict it should be found in. *)
Fixpoint omitted (path : list string) (v : pyval) : Prop :=
  match path, v with
  | k :: rest, PDict d =>
      match dict_lookup k d with
      | None => True
      | Some v' => omitted rest v'
      end
  | _, _ => False
  end.

(** A dict without its key [k]. *)
Fixpoint remove_key (k : string) (d : list (string * pyval)) : list (string * pyval) :=
  match d with
  | [] => []
  | (k', v) :: rest =>
      if String.eqb k' k then remove_key k rest else (k', v) :: remove_key k rest
  end.

Definition is_dict (v : pyval) : bool :=
  match v with PDict _ => true | _ => false end.
Definition is_str (v : pyval) : bool :=
  match v with PStr _ => true | _ => false end.

(** Whether the entries of a record can be built, as a function of the six
    payload values whose shape matters. *)
Definition fields_ok_of (images price location description features broker : pyval) : bool :=
  match py_iter images ≫= image_urls with
  | Ok urls =>
      is_dict price && is_dict location &&
      match location with
      | PDict d => is_dict (item "neighborhood" (PDict []) d) &&
                   is_dict (item "city" (PDict []) d)
      | _ => false
      end &&
      is_str description && is_ok (py_join ", " features) &&
      is_dict broker && is_ok (py_join "; " (PList urls))
  | Raise _ => false
  end.

Definition fields_ok (items : list (string * pyval)) : bool :=
  fields_ok_of (item "images" (PList []) items) (item "price" (PDict []) items)
    (item "location" (PDict []) items) (item "description" (PStr "") items)
    (item "features" (PList []) items) (item "broker" (PDict []) items).

(** *** Further readings of the log and of the records *)

Section Conduct.

Context {W E : Type}.
Variable drv : Browser W E.
Variable cfg : config.

(** Closing the session never raises. *)
Definition quit_safe : Prop :=
  forall w, exists w', quit drv w = (w', Ok tt).

(** A record as the CSV writer needs it: the declared fields, in order,
    and for URL a link that passed the filter of line 218. *)
Definition well_formed (r : record) : Prop :=
  map fst r = FIELDS /\
  exists url, dict_lookup "url" r = Some (PStr url) /\ accepted (Some url) = true.

(** What the walk over the result pages may add to the log after it has
    loaded the search page: any message or request that is not one of
    [main]'s own, and page loads of accepted links only. *)
Definition walk_event (e : event E) : bool :=
  match e with
  | Call (Get url) _ => accepted (Some url)
  | Call (StartChrome _) _ | Call Quit _ | Call (WriteCsv _ _ _) _ => false
  | Print Starting | Print (Saved _ _) | Print NoDataScraped
  | Print (MainError _) | Print BrowserClosed => false
  | _ => true
  end.

(** From [s] to [s']: the records are untouched and the log grows by walk
    events. *)
Definition quiet (s s' : state W E) : Prop :=
  properties s' = properties s /\
  exists d, out s' = (out s ++ d)%list /\ Forall (fun e => walk_event e = true) d.

(** From [s] to [s']: well-formed records are appended and the log grows
    by walk events. *)
Definition advances (s s' : state W E) : Prop :=
  (exists more, properties s' = (properties s ++ more)%list /\ Forall well_formed more) /\
  exists d, out s' = (out s ++ d)%list /\ Forall (fun e => walk_event e = true) d.

(** The log ends with a screenshot request that raised [e]. *)
Definition screenshot_raised (e : exn) (log : list (event E)) : Prop :=
  exists before file w w',
    log = (before ++ [Call (SaveScreenshot file) (Raise e)])%list /\
    save_screenshot drv file w = (w', Raise e).

(** The waits for a page-ready signal in a log, with their answers. *)
Definition waits (d : list (event E)) : list (string * outcome (value E)) :=
  omap (fun e => match e with
                 | Call (WaitUntil _ visibility_of_element_located XPATH locator) r =>
                     Some (locator, r)
                 | _ => None
                 end) d.

(** The screenshot requests of a log. *)
Definition screenshots (d : list (event E)) : list (string * outcome (value E)) :=
  omap (fun e => match e with
                 | Call (SaveScreenshot file) r => Some (file, r)
                 | _ => None
                 end) d.

(** The session-closing requests of a log. *)
Definition quits (d : list (event E)) : list (outcome (value E)) :=
  omap (fun e => match e with
                 | Call Quit r => Some r
                 | _ => None
                 end) d.

(** The requests to write the output file in a log: path, header, rows
    and answer. *)
Definition writes (d : list (event E))
    : list (string * list string * list record * outcome (value E)) :=
  omap (fun e => match e with
                 | Call (WriteCsv path header rows) r => Some (path, header, rows, r)
                 | _ => None
                 end) d.

(** The look-ups of an element of the page by XPath in a log, with their
    answers. *)
Definition lookups (d : list (event E)) : list (string * outcome (value E)) :=
  omap (fun e => match e with
                 | Call (FindElement None XPATH locator) r => Some (locator, r)
                 | _ => None
                 end) d.

(** The URLs a log shows being loaded, in order. *)
Definition visited (d : list (event E)) : list string :=
  omap (fun e => match e with
                 | Call (Get url) _ => Some url
                 | _ => None
                 end) d.

End Conduct.

(** The locators of the next-page control, in the order they are tried. *)
Definition NEXT_LOCATORS : list string := [NEXT_BY_LABEL; NEXT_BY_CLASS; NEXT_BY_TEXT].

(** The script [init_driver] runs on the fresh session. *)
Definition HIDE_WEBDRIVER : string :=
  "Object.defineProperty(navigator, 'webdriver', {get: () => undefined})".

Definition READY_TITLE : string := "//h1[@data-testid='title-listing-detail']".
Definition READY_CONTAINER : string := "//div[@class='listing-detail']".

(** The URL of an image entry, when it is a non-empty string. *)
Definition image_url (img : pyval) : option string :=
  match img with
  | PDict d =>
      match dict_lookup "url" d with
      | Some (PStr (String c u)) => Some (String c u)
      | _ => None
      end
  | _ => None
  end.

(** An image entry the comprehension of line 98 and the join of line 120
    go through: a dict whose url is missing, falsy, or a string. *)
Definition image_entry (img : pyval) : bool :=
  match img with
  | PDict d =>
      match dict_lookup "url" d with
      | None => true
      | Some v => is_str v || negb (truthy v)
      end
  | _ => false
  end.

(** The value found along [path] in nested dicts, if every key is there. *)
Fixpoint reach (path : list string) (v : pyval) : option pyval :=
  match path with
  | [] => Some v
  | k :: rest =>
      match v with
      | PDict d =>
          match dict_lookup k d with
          | Some v' => reach rest v'
          | None => None
          end
      | _ => None
      end
  end.

(** The fields copied from the payload as they are, with the keys that
    lead to them in the listing. *)
Definition COPIED : list (string * list string) :=
  [("title", ["title"]);
   ("price", ["price"; "value"]);
   ("currency", ["price"; "currency"]);
   ("location", ["location"; "formattedAddress"]);
   ("neighborhood", ["location"; "neighborhood"; "name"]);
   ("city", ["location"; "city"; "name"]);
   ("property_type", ["propertyType"]);
   ("area", ["area"]);
   ("rooms", ["rooms"]);
   ("bathrooms", ["bathrooms"]);
   ("parking", ["parking"]);
   ("stratum", ["stratum"]);
   ("status", ["status"]);
   ("broker", ["broker"; "name"]);
   ("broker_phone", ["broker"; "phone"]);
   ("virtual_tour", ["virtualTourUrl"]);
   ("property_id", ["id"])].

End Scraper.

(** ** A simulated browser *)

Module Sim.
Import Scraper.

(** Element handles of the simulated pages. *)
Inductive elem :=
| Card (anchor : option (option string))
| Anchor (href : option string)
| Script (text : string)
| Heading
| Button.

(** A detail page: whether navigation reaches it, whether its title ever
    becomes visible, the text of its data script, if it has one, and
    whether it repeats the pagination of the result page it was reached
    from. *)
Record detail := {
  reachable : bool;
  ready : bool;
  payload : option string;
  pager : bool
}.

(** A result page: the one selector that matches its cards, the cards, and
    the locator that finds its next-page control, if it has one. *)
Record listing_page := {
  selector : string;
  cards : list elem;
  next_locator : option string
}.

(** A site: its result pages and its detail pages by URL. *)
Record site := {
  search : list listing_page;
  details : list (string * detail)
}.

(** Where the browser is: nowhere yet, on the [n]-th result page, or on a
    detail page reached from the [n]-th result page. *)
Inductive location :=
| Blank
| Search (n : nat)
| Detail (n : nat) (d : detail).

Record session := Session { the_site : site; position : location }.

Fixpoint assoc {A} (k : string) (l : list (string * A)) : option A :=
  match l with
  | [] => None
  | (k', a) :: rest => if String.eqb k k' then Some a else assoc k rest
  end.

Definition goto (w : session) (l : location) : session := Session (the_site w) l.

(** The result page last shown. *)
Definition shown (w : session) : nat :=
  match position w with
  | Blank => O
  | Search n => n
  | Detail n _ => n
  end.

Definition refused : exn := Exn WebDriverException "net::ERR_CONNECTION_REFUSED".
Definition timed_out : exn := Exn TimeoutException "".
Definition no_such_element : exn := Exn NoSuchElementException "no such element".

Definition sim_navigate (url : string) (w : session) : session * outcome unit :=
  match assoc url (details (the_site w)) with
  | Some d =>
      if reachable d then (goto w (Detail (shown w) d), Ok tt) else (w, Raise refused)
  | None => (goto w (Search 0), Ok tt)
  end.

Definition sim_wait_until (timeout : Z) (cond : expected) (b : By) (loc : string)
    (w : session) : session * outcome elem :=
  match position w, cond with
  | Detail _ d, visibility_of_element_located =>
      (w, if ready d then Ok Heading else Raise timed_out)
  | Search n, presence_of_element_located =>
      (w, match nth_error (search (the_site w)) n with
          | Some _ => Ok (Card None)
          | None => Raise timed_out
          end)
  | _, _ => (w, Raise timed_out)
  end.

(** The next-page control of the [n]-th result page, under [loc]. *)
Definition next_control (w : session) (n : nat) (loc : string) : outcome elem :=
  match nth_error (search (the_site w)) n with
  | Some p =>
      match next_locator p with
      | Some l => if String.eqb loc l then Ok Button else Raise no_such_element
      | None => Raise no_such_element
      end
  | None => Raise no_such_element
  end.

Definition sim_find_element (parent : option elem) (b : By) (loc : string)
    (w : session) : session * outcome elem :=
  match parent with
  | Some (Card (Some h)) => (w, Ok (Anchor h))
  | Some _ => (w, Raise no_such_element)
  | None =>
      match position w with
      | Detail n d =>
          (w, if String.eqb loc "//script[@id='__NEXT_DATA__']" then
                match payload d with
                | Some t => Ok (Script t)
                | None => Raise no_such_element
                end
              else if pager d then next_control w n loc
              else Raise no_such_element)
      | Search n => (w, next_control w n loc)
      | Blank => (w, Raise no_such_element)
      end
  end.

Definition sim_find_elements (b : By) (loc : string) (w : session)
    : session * outcome (list elem) :=
  match position w with
  | Search n =>
      (w, match nth_error (search (the_site w)) n with
          | Some p => if String.eqb loc (selector p) then Ok (cards p) else Ok []
          | None => Ok []
          end)
  | _ => (w, Ok [])
  end.

Definition sim_get_attribute (e : elem) (name : string) (w : session)
    : session * outcome (option string) :=
  match e with
  | Anchor h => (w, Ok (if String.eqb name "href" then h else None))
  | Script t => (w, Ok (if String.eqb name "textContent" then Some t else None))
  | _ => (w, Ok None)
  end.

Definition sim_execute_script (script : string) (args : list elem) (w : session)
    : session * outcome unit :=
  match args with
  | [Button] =>
      if String.eqb script "arguments[0].click();"
      then (goto w (Search (S (shown w))), Ok tt) else (w, Ok tt)
  | _ => (w, Ok tt)
  end.

(** [camera] tells whether screenshots can be taken. *)
Definition sim_save_screenshot (camera : bool) (file : string) (w : session)
    : session * outcome bool :=
  if camera then (w, Ok true)
  else (w, Raise (Exn WebDriverException "invalid session id")).

Definition sim_strftime (format : string) (w : session) : session * string :=
  (w, if String.eqb format "%Y%m%d-%H%M%S" then "20240101-120000"
      else "2024-01-01 12:00:00").

(** [json.loads] by table: a text outside the table does not parse. *)
Definition sim_loads (table : list (string * pyval)) (text : string) : outcome pyval :=
  match assoc text table with
  | Some v => Ok v
  | None => Raise (Exn JSONDecodeError "Expecting value: line 1 column 1 (char 0)")
  end.

Definition browser (table : list (string * pyval)) (camera : bool) : Browser session elem := {|
  start_chrome := fun _ w => (w, Ok tt);
  navigate := sim_navigate;
  wait_until := sim_wait_until;
  find_element := sim_find_element;
  find_elements := sim_find_elements;
  get_attribute := sim_get_attribute;
  click := fun _ w => (w, Ok tt);
  execute_script := sim_execute_script;
  save_screenshot := sim_save_screenshot camera;
  page_source := fun w => (w, Ok "<html></html>");
  quit := fun w => (w, Ok tt);
  write_file := fun _ _ w => (w, Ok tt);
  write_csv := fun _ _ _ w => (w, Ok tt);
  strftime := sim_strftime;
  json_loads := sim_loads table
|}.

(** The state a run starts from. *)
Definition boot (s : site) : state session elem :=
  State (Session s Blank) [] [] 0.

(** *** Sample payloads and sites *)

Definition wrap (listing : pyval) : pyval :=
  PDict [("props", PDict [("pageProps", PDict [("listing", listing)])])].

Definition flat_listing : pyval :=
  PDict [("title", PStr "Apartamento en Chapinero");
         ("price", PDict [("value", PInt 450000000)]);
         ("description", PStr "Luminoso
y central");
         ("features", PList [PStr "Balcon"; PStr "Ascensor"]);
         ("images", PList [PDict [("url", PStr "https://img/1.jpg")]; PDict []])].

(** Six hundred characters. *)
Definition long_description : string :=
  String.concat "" (repeat "0123456789" 60).

Definition table : list (string * pyval) :=
  [("flat", wrap flat_listing);
   ("bare", wrap (PDict [("id", PInt 7)]));
   ("long", wrap (PDict [("description", PStr long_description)]));
   ("empty", wrap (PDict []));
   ("nolisting", PDict [("props", PDict [])])].

(** The browser of the examples: screenshots can be taken. *)
Definition chrome : Browser session elem := browser table true.

Definition URL_A : string := "https://m2/inmueble/a".
Definition URL_B : string := "https://m2/inmueble/b".

Definition card_to (url : string) : elem := Card (Some (Some url)).

Definition results_page (cs : list elem) (next : option string) : listing_page :=
  {| selector := SEL_CLASS; cards := cs; next_locator := next |}.

Definition good : detail :=
  {| reachable := true; ready := true; payload := Some "flat"; pager := false |}.
Definition hollow : detail :=
  {| reachable := true; ready := true; payload := Some "empty"; pager := false |}.
Definition garbled : detail :=
  {| reachable := true; ready := true; payload := Some "<html>"; pager := false |}.
Definition bare : detail :=
  {| reachable := true; ready := true; payload := Some "bare"; pager := false |}.
Definition down : detail :=
  {| reachable := false; ready := true; payload := Some "flat"; pager := false |}.
Definition paged : detail :=
  {| reachable := true; ready := true; payload := Some "flat"; pager := true |}.

(** One result page with one good property and no next-page control. *)
Definition site_one : site := {|
  search := [results_page [card_to URL_A] None];
  details := [(URL_A, good)]
|}.

(** One result page, two properties, the second without listing data. *)
Definition site_two : site := {|
  search := [results_page [card_to URL_A; card_to URL_B] None];
  details := [(URL_A, good); (URL_B, hollow)]
|}.

(** One result page, two properties, the first of which cannot be reached. *)
Definition site_down : site := {|
  search := [results_page [card_to URL_A; card_to URL_B] None];
  details := [(URL_A, down); (URL_B, good)]
|}.


(** A property whose listing holds an identifier and nothing else. *)
Definition site_bare : site := {|
  search := [results_page [card_to URL_A] None];
  details := [(URL_A, bare)]
|}.

(** A property whose data script is not JSON. *)
Definition site_garbled : site := {|
  search := [results_page [card_to URL_A] None];
  details := [(URL_A, garbled)]
|}.

(** Four result pages, each with a next-page control that the detail
    pages repeat. *)
Definition site_many : site := {|
  search := repeat (results_page [card_to URL_A; card_to URL_B] (Some NEXT_BY_CLASS)) 4;
  details := [(URL_A, paged); (URL_B, paged)]
|}.

(** Two result pages; the second has no cards. *)
Definition site_short : site := {|
  search := [results_page [card_to URL_A] (Some NEXT_BY_TEXT); results_page [] None];
  details := [(URL_A, paged)]
|}.

(** The items of the sample listing. *)
Definition flat_items : list (string * pyval) :=
  match flat_listing with
  | PDict items => items
  | _ => []
  end.

(** A browser in which no script runs: the session starts, and the script
    of [init_driver] raises. *)
Definition stuck : Browser session elem := {|
  start_chrome := start_chrome chrome;
  navigate := navigate chrome;
  wait_until := wait_until chrome;
  find_element := find_element chrome;
  find_elements := find_elements chrome;
  get_attribute := get_attribute chrome;
  click := click chrome;
  execute_script := fun _ _ w => (w, Raise (Exn WebDriverException "javascript error"));
  save_screenshot := save_screenshot chrome;
  page_source := page_source chrome;
  quit := quit chrome;
  write_file := write_file chrome;
  write_csv := write_csv chrome;
  strftime := strftime chrome;
  json_loads := json_loads chrome
|}.

(** A machine on which the output file cannot be written. *)
Definition read_only : Browser session elem := {|
  start_chrome := start_chrome chrome;
  navigate := navigate chrome;
  wait_until := wait_until chrome;
  find_element := find_element chrome;
  find_elements := find_elements chrome;
  get_attribute := get_attribute chrome;
  click := click chrome;
  execute_script := execute_script chrome;
  save_screenshot := save_screenshot chrome;
  page_source := page_source chrome;
  quit := quit chrome;
  write_file := write_file chrome;
  write_csv := fun _ _ _ w => (w, Raise (Exn OSError "[Errno 13] Permission denied"));
  strftime := strftime chrome;
  json_loads := json_loads chrome
|}.

(** The visits and runs of the examples. *)
Definition visit (s : site) (url : string) :=
  scrape_property_page chrome shipped url (boot s).

Definition walk (s : site) := scrape_search_results chrome shipped 3 (boot s).

Definition run (s : site) := main chrome shipped 3 (boot s).

(** The record a visit returned, if it did. *)
Definition record_of (r : outcome (option record)) : record :=
  match r with
  | Ok (Some rec) => rec
  | _ => []
  end.

End Sim.

(** ** Properties of the payload operations *)

Import Scraper.







Lemma replace_char_id old new s :
  ~ In old (chars s) -> replace_char old new s = s.
Proof.
  induction s as [|c s IH]; simpl; [reflexivity |].
  intros H. destruct (Ascii.eqb_spec c old) as [-> | Hc]; [tauto |].
  rewrite IH; tauto.
Qed.


(** What [listing.get(k, dflt)] is on a dict with the given items. *)
Lemma py_get_dict items k dflt :
  py_get (PDict items) k dflt = Ok (default dflt (dict_lookup k items)).
Proof. reflexivity. Qed.

Lemma py_get_ok v k dflt x :
  py_get v k dflt = Ok x ->
  exists items, v = PDict items /\ x = default dflt (dict_lookup k items).
Proof.
  destruct v; simpl; intros H; try discriminate H.
  injection H as <-. eauto.
Qed.

Lemma outcome_bind_ok {A B} (c : outcome A) (k : A -> outcome B) b :
  c ≫= k = Ok b -> exists a, c = Ok a /\ k a = Ok b.
Proof. destruct c as [a|e]; simpl; intros H; [eauto | discriminate H]. Qed.

(** The entries of a record built from a listing, spelled out. *)
Lemma property_fields_inv url listing f :
  property_fields url listing = Ok f ->
  exists items images price currency address neighborhood city description
         features broker_name broker_phone images_joined,
    listing = PDict items /\
    (py_iter (item "images" (PList []) items) ≫= image_urls) = Ok images /\
    py_get (item "price" (PDict []) items) "value" (PStr "") = Ok price /\
    py_get (item "price" (PDict []) items) "currency" (PStr "COP") = Ok currency /\
    py_get (item "location" (PDict []) items) "formattedAddress" (PStr "") = Ok address /\
    (py_get (item "location" (PDict []) items) "neighborhood" (PDict [])
       ≫= fun n => py_get n "name" (PStr "")) = Ok neighborhood /\
    (py_get (item "location" (PDict []) items) "city" (PDict [])
       ≫= fun c => py_get c "name" (PStr "")) = Ok city /\
    (py_slice_to 500 (item "description" (PStr "") items)
       ≫= py_replace newline space) = Ok description /\
    py_join ", " (item "features" (PList []) items) = Ok features /\
    py_get (item "broker" (PDict []) items) "name" (PStr "") = Ok broker_name /\
    py_get (item "broker" (PDict []) items) "phone" (PStr "") = Ok broker_phone /\
    py_join "; " (PList images) = Ok images_joined /\
    f = [ ("url", PStr url);
          ("title", item "title" (PStr "") items);
          ("price", price);
          ("currency", currency);
          ("location", address);
          ("neighborhood", neighborhood);
          ("city", city);
          ("property_type", item "propertyType" (PStr "") items);
          ("area", item "area" (PStr "") items);
          ("rooms", item "rooms" (PStr "") items);
          ("bathrooms", item "bathrooms" (PStr "") items);
          ("parking", item "parking" (PStr "") items);
          ("stratum", item "stratum" (PStr "") items);
          ("status", item "status" (PStr "") items);
          ("description", PStr (description +:+ "..."));
          ("features", PStr features);
          ("broker", broker_name);
          ("broker_phone", broker_phone);
          ("images", PStr images_joined);
          ("virtual_tour", item "virtualTourUrl" (PStr "") items);
          ("property_id", item "id" (PStr "") items) ].
Proof.
  unfold property_fields. intros H.
  destruct listing as [| | | | |l|items]; try discriminate H.
  rewrite !py_get_dict in H. cbn beta in H.
  repeat (apply outcome_bind_ok in H; destruct H as (? & ? & H)).
  repeat match goal with
  | H : Ok _ = Ok _ |- _ => injection H as <-
  end.
  exists items. do 11 eexists. unfold item.
  repeat match goal with
  | |- _ /\ _ => split
  | H : ?c = Ok _ |- ?c ≫= _ = _ => rewrite H; cbn
  | H : ?c = Ok _ |- ?c = Ok _ => exact H
  end.
  all: reflexivity.
Qed.

Lemma bind_Ok {A B} (a : A) (k : A -> outcome B) : Ok a ≫= k = k a.
Proof. reflexivity. Qed.
Lemma bind_Raise {A B} e (k : A -> outcome B) : Raise e ≫= k = Raise e.
Proof. reflexivity. Qed.

Ltac ob :=
  repeat progress (rewrite ?bind_Ok, ?bind_Raise; cbn beta;
                   cbn [py_get py_slice_to py_replace is_ok is_dict is_str andb]).

Lemma property_fields_ok url items :
  is_ok (property_fields url (PDict items)) = fields_ok items.
Proof.
  unfold property_fields, fields_ok, fields_ok_of.
  rewrite !py_get_dict. cbn beta. unfold item.
  generalize (default (PList []) (dict_lookup "images" items)) as images.
  generalize (default (PDict []) (dict_lookup "price" items)) as price.
  generalize (default (PDict []) (dict_lookup "location" items)) as location.
  generalize (default (PStr "") (dict_lookup "description" items)) as description.
  generalize (default (PList []) (dict_lookup "features" items)) as features.
  generalize (default (PDict []) (dict_lookup "broker" items)) as broker.
  intros.
  ob.
  destruct (py_iter images) as [imgs|e]; ob; [|reflexivity].
  destruct (image_urls imgs) as [urls|e]; ob; [|reflexivity].
  destruct price; ob; try reflexivity.
  destruct location as [| | | | | |loc]; ob; try reflexivity.
  unfold item.
  destruct (default (PDict []) (dict_lookup "neighborhood" loc)); ob; try reflexivity.
  destruct (default (PDict []) (dict_lookup "city" loc)); ob; try reflexivity.
  destruct description; ob; try reflexivity.
  destruct (py_join ", " features); ob; [|reflexivity].
  destruct broker; ob; try reflexivity.
  destruct (py_join "; " (PList urls)); reflexivity.
Qed.

Lemma dict_lookup_remove k k' d :
  dict_lookup k' (remove_key k d) = if String.eqb k' k then None else dict_lookup k' d.
Proof.
  induction d as [|[k0 v] d IH]; simpl.
  - now destruct (String.eqb k' k).
  - destruct (String.eqb_spec k0 k) as [->|Hne]; simpl.
    + rewrite IH. destruct (String.eqb_spec k' k); reflexivity.
    + rewrite IH. destruct (String.eqb_spec k' k0) as [->|?]; [|reflexivity].
      destruct (String.eqb_spec k0 k); [contradiction|reflexivity].
Qed.

Lemma item_remove k k' dflt d :
  item k' dflt (remove_key k d) = if String.eqb k' k then dflt else item k' dflt d.
Proof. unfold item. rewrite dict_lookup_remove. now destruct (String.eqb k' k). Qed.

Lemma fields_ok_of_default (b1 b2 b3 b4 b5 b6 : bool) i p l d f b :
  fields_ok_of i p l d f b = true ->
  fields_ok_of (if b1 then PList [] else i) (if b2 then PDict [] else p)
    (if b3 then PDict [] else l) (if b4 then PStr "" else d)
    (if b5 then PList [] else f) (if b6 then PDict [] else b) = true.
Proof.
  unfold fields_ok_of. intros H.
  destruct (py_iter i ≫= image_urls) as [urls|e] eqn:Hi; [|discriminate H].
  repeat (apply andb_prop in H; destruct H as [H ?]).
  assert (Hj : is_ok (py_join "; " (PList [])) = true) by reflexivity.
  destruct b1, b2, b3, b4, b5, b6; rewrite ?Hi; cbn [mbind outcome_bind py_iter image_urls];
    rewrite ?bind_Ok; cbn [is_dict is_str item dict_lookup default andb image_urls];
    repeat (apply andb_true_intro; split); try assumption; try reflexivity.
Qed.

Lemma fields_ok_remove k items :
  fields_ok items = true -> fields_ok (remove_key k items) = true.
Proof.
  unfold fields_ok. rewrite !item_remove. apply fields_ok_of_default.
Qed.

Lemma prefix_spec n h :
  String.prefix n h = true <-> exists after, h = n +:+ after.
Proof.
  revert h; induction n as [|c n IH]; intros h.
  - split; [intros _; exists h; reflexivity | intros _; destruct h; reflexivity].
  - destruct h as [|c' h]; simpl.
    + split; [discriminate | intros [a Ha]; discriminate Ha].
    + destruct (Ascii.ascii_dec c c') as [->|Hne].
      * rewrite IH. split; intros [a Ha]; exists a; [now rewrite Ha | now injection Ha].
      * split; [discriminate | intros [a Ha]; injection Ha; congruence].
Qed.

Lemma contains_spec n h : contains n h = true <-> occurs_in n h.
Proof.
  unfold occurs_in. induction h as [|c h IH]; cbn [contains].
  - rewrite orb_false_r, prefix_spec. split.
    + intros [a Ha]. exists "", a. exact Ha.
    + intros ([|c b] & a & Ha); [exists a; exact Ha | discriminate Ha].
  - rewrite orb_true_iff, prefix_spec, IH. split.
    + intros [[a Ha] | (b & a & Ha)].
      * exists "", a. exact Ha.
      * exists (String c b), a. simpl. now rewrite Ha.
    + intros ([|c' b] & a & Ha).
      * left. exists a. exact Ha.
      * right. exists b, a. simpl in Ha. now injection Ha.
Qed.

Lemma accepted_spec h : accepted (Some h) = true -> accepted_url h.
Proof.
  unfold accepted, accepted_url. rewrite andb_true_iff, orb_true_iff, !contains_spec.
  tauto.
Qed.


(** A field whose source key is not in the payload holds its default. *)
Lemma property_fields_defaults url items f field path dflt :
  property_fields url (PDict items) = Ok f ->
  In (field, path, dflt) SOURCES ->
  omitted path (PDict items) ->
  dict_lookup field f = Some (PStr dflt).
Proof.
  intros Hf Hin Hom.
  apply property_fields_inv in Hf.
  destruct Hf as (items' & images & price & currency & address & nb & city & descr
                  & feats & bname & bphone & imgs & Heq & Himg & Hprice & Hcur & Haddr
                  & Hnb & Hcity & Hdesc & Hfeat & Hbn & Hbp & Hjoin & ->).
  injection Heq as <-.
  unfold SOURCES in Hin. cbn [In] in Hin.
  repeat match type of Hin with
  | _ \/ _ => destruct Hin as [Hin | Hin]
  | False => destruct Hin
  end; injection Hin as <- <- <-; cbn [omitted] in Hom; cbn [dict_lookup String.eqb Ascii.eqb Bool.eqb];
  unfold item in *.
  all: repeat match type of Hom with
       | match ?x with _ => _ end => destruct x as [[]|] eqn:?; try contradiction
       end.
  all: repeat progress (
         repeat match goal with
         | Hl : dict_lookup ?k ?d = _ |- context [dict_lookup ?k ?d] => rewrite Hl
         | Hl : dict_lookup ?k ?d = _, H : context [dict_lookup ?k ?d] |- _ =>
             lazymatch type of H with
             | dict_lookup k d = _ => fail
             | _ => rewrite Hl in H
             end
         end;
         cbn in *;
         repeat match goal with
         | H : Ok _ = Ok _ |- _ => injection H as <-
         end).
  all: reflexivity.
Qed.

(** ** Running the program: one detail page *)

Ltac unfold_run :=
  unfold append_property, take_screenshot, time_strftime, driver_save_screenshot, driver_get,
    driver_wait, driver_find_element, element_find_element, driver_find_elements,
    element_get_attribute, element_click, driver_execute_script, driver_page_source,
    driver_quit, file_write, csv_write, print, emit, perform, lift, try_catch,
    try_except, try_finally, get_page, set_page, get_properties, set_properties,
    sleep, mbind, mret, M_bind, M_ret in *.

(** Case analysis on the innermost scrutinee of the goal. *)
Ltac case_step :=
  match goal with
  | |- context [match ?x with _ => _ end] =>
      lazymatch x with
      | context [match _ with _ => _ end] => fail
      | _ => destruct x eqn:?
      end
  end.

Ltac steps :=
  repeat (cbn [world out properties page fst snd outcome_map negb] in *; case_step).

(** Membership in an explicit list. *)
Ltac pick_in := cbn [In]; repeat first [left; reflexivity | right].

(** Use up a membership hypothesis of an explicit list. *)
Ltac only_one H :=
  cbn [In] in H;
  repeat match type of H with
  | _ \/ _ => destruct H as [H | H]
  | False => destruct H
  | _ = _ => first [discriminate H | injection H; intros; subst; clear H]
  end.

Section PropertyPage.

Context {W E : Type}.
Variable drv : Browser W E.
Variable cfg : config.

(** What a screenshot does to the state, whatever the collaborators answer. *)
Lemma take_screenshot_run name s :
  exists w ts r,
    save_screenshot drv (screenshot_file cfg name ts)
      (fst (strftime drv "%Y%m%d-%H%M%S" (world s))) = (w, r) /\
    take_screenshot drv cfg name s =
    (State w
       (out s ++ Call (Strftime "%Y%m%d-%H%M%S") (Ok (VText ts))
              :: Call (SaveScreenshot (screenshot_file cfg name ts)) (outcome_map VBool r)
              :: match r with
                 | Ok _ => [Print (SavedScreenshot (screenshot_file cfg name ts))]
                 | Raise _ => []
                 end)%list
       (properties s) (page s),
     outcome_map (fun _ => screenshot_file cfg name ts) r).
Proof.
  unfold_run. cbn.
  destruct (strftime drv _ (world s)) as [w1 ts] eqn:H1. cbn.
  destruct (save_screenshot drv _ w1) as [w2 r] eqn:H2. cbn.
  exists w2, ts, r. split; [exact H2 |].
  destruct r; cbn; rewrite <- !app_assoc; reflexivity.
Qed.

(** Every way a visit of a detail page can end. *)
Lemma scrape_property_page_cases url s :
  let '(s', r) := scrape_property_page drv cfg url s in
  properties s' = properties s /\ page s' = page s /\
  exists d, out s' = (out s ++ d)%list /\
  Forall (fun e => low e = true) d /\
  match r with
  | Ok (Some rec) =>
      exists el text json listing fields now,
        In (Call (GetAttribute el "textContent") (Ok (VAttr text))) d /\
        (forall el' text',
            In (Call (GetAttribute el' "textContent") (Ok (VAttr text'))) d ->
            text' = text) /\
        loads drv text = Ok json /\ listing_of json = Ok listing /\
        truthy listing = true /\ property_fields url listing = Ok fields /\
        In (Call (Strftime "%Y-%m-%d %H:%M:%S") (Ok (VText now))) d /\
        rec = (fields ++ [("scraped_at", PStr now)])%list
  | Ok None =>
      exists file b, snapshot_of cfg ["no_listing_data"; "property_error"] file /\
        In (Call (SaveScreenshot file) (Ok (VBool b))) d
  | Raise e =>
      d = [Print (ScrapingProperty url); Call (Get url) (Raise e)] \/
      exists file w w', snapshot_of cfg ["no_listing_data"; "property_error"] file /\
        In (Call (SaveScreenshot file) (Raise e)) d /\
        save_screenshot drv file w = (w', Raise e)
  end.
Proof.
  unfold scrape_property_page. unfold_run.
  steps.
  all: cbn [world out properties page fst snd outcome_map].
  all: split; [reflexivity | split; [reflexivity |]].
  all: eexists; split; [rewrite <- ?app_assoc; cbn [app]; reflexivity |].
  all: split; [repeat constructor |].
  all: try (left; reflexivity).
  all: try (right; do 3 eexists; split; [| split; [pick_in | eassumption]];
            do 2 eexists; split; [| reflexivity]; pick_in).
  all: try (do 2 eexists; split; [| pick_in]; do 2 eexists; split; [| reflexivity]; pick_in).
  all: do 6 eexists; split; [pick_in |];
       split; [intros el' text' Hin; only_one Hin; reflexivity |].
  all: repeat split; try eassumption; try pick_in.
  all: destruct (truthy _); [reflexivity | discriminate].
Qed.

End PropertyPage.

(** ** Properties of one visit *)

Section Visit.

Context {W E : Type}.
Variable drv : Browser W E.
Variable cfg : config.

(** A record returned by a visit is built from the listing of the payload
    that the visit read. *)
Lemma scrape_property_page_record url s s' rec d text json listing :
  scrape_property_page drv cfg url s = (s', Ok (Some rec)) ->
  out s' = (out s ++ d)%list ->
  payload_read d text ->
  loads drv text = Ok json ->
  listing_of json = Ok listing ->
  exists items fields now,
    listing = PDict items /\
    property_fields url (PDict items) = Ok fields /\
    rec = (fields ++ [("scraped_at", PStr now)])%list.
Proof.
  intros Hrun Hout [el Hread] Hloads Hlisting.
  pose proof (scrape_property_page_cases drv cfg url s) as H.
  rewrite Hrun in H. destruct H as (_ & _ & d0 & Hd0 & _ & H).
  rewrite Hd0 in Hout. apply app_inv_head in Hout. subst d0.
  destruct H as (el0 & text0 & json0 & listing0 & fields & now & _ & Huniq & Hl & Hlo & _ & Hf & _ & ->).
  apply Huniq in Hread. subst text0.
  rewrite Hloads in Hl. injection Hl as <-.
  rewrite Hlisting in Hlo. injection Hlo as <-.
  destruct (property_fields_inv _ _ _ Hf) as (items & _ & _ & _ & _ & _ & _ & _ & _ & _ & _ & _ & -> & _).
  exists items, fields, now. auto.
Qed.




(** The keys of a record are the declared fields. *)
Lemma FIELDS_of url listing fields now :
  property_fields url listing = Ok fields ->
  map fst (fields ++ [("scraped_at", PStr now)])%list = FIELDS.
Proof.
  intros Hf. apply property_fields_inv in Hf.
  destruct Hf as (? & ? & ? & ? & ? & ? & ? & ? & ? & ? & ? & ? & _ & _ & _ & _ & _
                  & _ & _ & _ & _ & _ & _ & _ & ->).
  reflexivity.
Qed.

Lemma dict_lookup_app_l k (a b : list (string * pyval)) v :
  dict_lookup k a = Some v -> dict_lookup k (a ++ b)%list = Some v.
Proof.
  induction a as [|[k' v'] a IH]; simpl; [discriminate |].
  destruct (String.eqb k k'); [trivial | exact IH].
Qed.

(** C6.  A record returned by a visit has all the declared fields, in order;
    each field whose source key is missing from the listing read holds its
    default string; and taking any key away from that listing leaves a
    listing whose entries still build. *)
Theorem record_fields_default url s s' rec d text json items :
  scrape_property_page drv cfg url s = (s', Ok (Some rec)) ->
  out s' = (out s ++ d)%list ->
  payload_read d text ->
  loads drv text = Ok json ->
  listing_of json = Ok (PDict items) ->
  map fst rec = FIELDS /\
  (forall field path dflt,
      In (field, path, dflt) SOURCES -> omitted path (PDict items) ->
      dict_lookup field rec = Some (PStr dflt)) /\
  (forall k, is_ok (property_fields url (PDict (remove_key k items))) = true).
Proof.
  intros Hrun Hout Hread Hloads Hlisting.
  destruct (scrape_property_page_record _ _ _ _ _ _ _ _ Hrun Hout Hread Hloads Hlisting)
    as (items' & fields & now & Heq & Hf & ->).
  injection Heq as <-.
  split; [eapply FIELDS_of; exact Hf |]. split.
  - intros field path dflt Hin Hom. apply dict_lookup_app_l.
    eapply property_fields_defaults; eassumption.
  - intros k. rewrite property_fields_ok. apply fields_ok_remove.
    rewrite <- property_fields_ok with (url := url), Hf. reflexivity.
Qed.



(** C1.  When [driver.get(url)] raises, the exception leaves
    [scrape_property_page] and the loop over the links: no screenshot is
    requested, nothing is appended, and the links after [url] are not
    visited. *)
Theorem navigation_error_escapes i n url rest s w e :
  navigate drv url (world s) = (w, Raise e) ->
  scrape_each drv cfg i n (url :: rest) s =
  (State w
     (out s ++ [Print (ProcessingProperty i n (str_take 70 url));
                Print (ScrapingProperty url);
                Call (Get url) (Raise e)])%list
     (properties s) (page s),
   Raise e).
Proof.
  intros Hnav. cbn [scrape_each]. unfold scrape_property_page. unfold_run.
  cbn [world out properties page]. rewrite Hnav. cbn [outcome_map].
  rewrite <- !app_assoc. reflexivity.
Qed.

End Visit.

(** ** Running the program: the parts of a result page *)

(** Close a goal [extends P s s'] on an explicit final state. *)
Ltac solve_extends :=
  unfold extends; cbn [world out properties page];
  split; [reflexivity |
  split; [exists []; rewrite app_nil_r; reflexivity |
  eexists; split; [rewrite <- ?app_assoc; cbn [app];
                   first [reflexivity | symmetry; apply app_nil_r] |
                   repeat constructor]]].

Section Blocks.

Context {W E : Type}.
Variable drv : Browser W E.
Variable cfg : config.

Local Abbreviation state := (state W E).

Lemma extends_refl P (s : state) : extends P s s.
Proof.
  split; [reflexivity |]. split; [exists []; now rewrite app_nil_r |].
  exists []. split; [now rewrite app_nil_r | constructor].
Qed.

Lemma extends_trans P (s1 s2 s3 : state) :
  extends P s1 s2 -> extends P s2 s3 -> extends P s1 s3.
Proof.
  intros (Hp1 & [m1 Hm1] & d1 & Hd1 & Hf1) (Hp2 & [m2 Hm2] & d2 & Hd2 & Hf2).
  split; [congruence |]. split.
  - exists (m1 ++ m2)%list. rewrite Hm2, Hm1, app_assoc. reflexivity.
  - exists (d1 ++ d2)%list. split.
    + rewrite Hd2, Hd1, app_assoc. reflexivity.
    + apply Forall_app; auto.
Qed.

Lemma extends_weaken (P Q : event E -> bool) (s s' : state) :
  (forall e, P e = true -> Q e = true) -> extends P s s' -> extends Q s s'.
Proof.
  intros HPQ (Hp & Hm & d & Hd & Hf). split; [exact Hp |]. split; [exact Hm |].
  exists d. split; [exact Hd |]. eapply Forall_impl; [exact Hf | exact HPQ].
Qed.

Lemma low_calm (e : event E) : low e = true -> calm e = true.
Proof. unfold low. rewrite andb_true_iff. tauto. Qed.

Lemma take_screenshot_extends name s :
  let '(s', r) := take_screenshot drv cfg name s in
  extends low s s' /\ properties s' = properties s /\
  (snapshot_safe drv -> exists file, r = Ok file).
Proof.
  destruct (take_screenshot_run drv cfg name s) as (w & ts & r & Hsave & ->).
  split; [| split; [reflexivity |]].
  - destruct r; solve_extends.
  - intros Hsafe. destruct (Hsafe (screenshot_file cfg name ts)
      (fst (strftime drv "%Y%m%d-%H%M%S" (world s)))) as (w' & b & Hok).
    rewrite Hok in Hsave. injection Hsave as <- <-. cbn. eauto.
Qed.

Lemma scroll_page_extends s :
  let '(s', r) := scroll_page drv cfg s in extends low s s'.
Proof.
  unfold scroll_page. unfold_run. steps.
  all: solve_extends.
Qed.

Lemma find_cards_extends s :
  let '(s', r) := find_cards drv s in extends low s s'.
Proof.
  unfold find_cards, try_method. unfold_run. steps.
  all: solve_extends.
Qed.

Lemma report_no_cards_extends s :
  let '(s', r) := report_no_cards drv cfg s in extends calm s s'.
Proof.
  unfold report_no_cards. unfold_run. steps.
  all: solve_extends.
Qed.

Lemma card_link_run card s :
  exists s' hrefs, card_link drv card s = (s', Ok hrefs) /\
    Forall (fun h => accepted (Some h) = true) hrefs /\ extends low s s'.
Proof.
  unfold card_link. unfold_run. steps.
  all: do 2 eexists; split; [reflexivity |]; split; [| solve_extends].
  all: try constructor.
  all: match goal with o : option string |- _ => destruct o; cbn [option_list] end.
  all: repeat constructor; try assumption.
Qed.

Lemma collect_links_run cards : forall s,
  exists s' hrefs, collect_links drv cards s = (s', Ok hrefs) /\
    Forall (fun h => accepted (Some h) = true) hrefs /\ extends low s s'.
Proof.
  induction cards as [|card rest IH]; intros s.
  - exists s, []. split; [reflexivity |]. split; [constructor | apply extends_refl].
  - cbn [collect_links]. unfold mbind, M_bind.
    destruct (card_link_run card s) as (s1 & found & -> & Hf & He1).
    destruct (IH s1) as (s2 & more & -> & Hm & He2).
    exists s2, (found ++ more)%list. split; [reflexivity |].
    split; [apply Forall_app; auto | eapply extends_trans; eassumption].
Qed.

Lemma scrape_property_page_extends url s :
  let '(s', r) := scrape_property_page drv cfg url s in
  extends low s s' /\ properties s' = properties s.
Proof.
  pose proof (scrape_property_page_cases drv cfg url s) as H.
  destruct (scrape_property_page drv cfg url s) as [s' r].
  destruct H as (Hp & Hg & d & Hd & Hlow & _).
  split; [| exact Hp]. split; [exact Hg |].
  split; [exists []; now rewrite app_nil_r, Hp |]. eauto.
Qed.

Lemma scrape_each_extends links : forall i n s,
  let '(s', r) := scrape_each drv cfg i n links s in extends low s s'.
Proof.
  induction links as [|url rest IH]; intros i n s.
  - apply extends_refl.
  - cbn [scrape_each]. unfold_run. cbn [world out properties page].
    match goal with
    | |- context [scrape_property_page drv cfg url ?s1] =>
        pose proof (scrape_property_page_extends url s1) as Hv;
        destruct (scrape_property_page drv cfg url s1) as [s2 r2];
        assert (H1 : extends low s s1) by solve_extends
    end.
    destruct Hv as [Hv _].
    pose proof (extends_trans _ _ _ _ H1 Hv) as H2.
    destruct r2 as [[rec|]|e]; [destruct (truthy (PDict rec)) |..];
      cbn [world out properties page]; try exact H2.
    + match goal with
      | |- context [scrape_each drv cfg ?j n rest ?s3] =>
          specialize (IH j n s3); destruct (scrape_each drv cfg j n rest s3) as [s4 r4];
          assert (H3 : extends low s2 s3)
      end.
      { split; [reflexivity |]. split; [eexists; reflexivity |].
        exists []. split; [now rewrite app_nil_r | constructor]. }
      destruct r4; eapply extends_trans; try exact IH; eapply extends_trans; eassumption.
    + specialize (IH (i + 1) n s2). destruct (scrape_each drv cfg (i + 1) n rest s2) as [s4 r4].
      destruct r4; eapply extends_trans; eassumption.
    + specialize (IH (i + 1) n s2). destruct (scrape_each drv cfg (i + 1) n rest s2) as [s4 r4].
      destruct r4; eapply extends_trans; eassumption.
Qed.

End Blocks.

(** ** Running the program: one result page *)

Lemma exn_class_eqb_eq a b : exn_class_eqb a b = true <-> a = b.
Proof. destruct a, b; simpl; split; intros H; try reflexivity; discriminate H. Qed.

Lemma exn_class_eqb_neq a b : exn_class_eqb a b = false <-> a <> b.
Proof. destruct a, b; simpl; split; intros H; try discriminate; try reflexivity; try congruence. Qed.

Section Cards.

Context {W E : Type}.
Variable drv : Browser W E.
Variable cfg : config.

(** C3.  The card selectors are queried in the fixed order data-testid,
    class, generic; every query before the last one made yielded no card;
    a non-empty result is the answer of the last query made, after which
    no other selector is tried; and the result is empty only when all
    three were queried and none yielded a card. *)
Theorem cards_first_nonempty s :
  let '(s', r) := find_cards drv s in
  exists d tried last,
    out s' = (out s ++ d)%list /\
    queries d = (tried ++ [last])%list /\
    map fst (queries d) = take (S (length tried)) CARD_SELECTORS /\
    Forall (fun q => yields_none (snd q)) tried /\
    match r with
    | Ok [] => length tried = 2%nat /\ yields_none (snd last)
    | Ok cards => snd last = Ok (VElems cards)
    | Raise e => snd last = Raise e /\ exn_cls e <> NoSuchElementException
    end.
Proof.
  unfold find_cards, try_method. unfold_run. steps.
  all: cbn [world out properties page fst snd outcome_map is_empty] in *.
  all: try discriminate.
  all: eexists; rewrite <- ?app_assoc; cbn [app].
  all: first [ exists []; eexists; split; [reflexivity |]; split; [reflexivity |]
             | eexists [_]; eexists; split; [reflexivity |]; split; [reflexivity |]
             | eexists [_; _]; eexists; split; [reflexivity |]; split; [reflexivity |] ].
  all: cbn [fst snd map take length CARD_SELECTORS].
  all: split; [reflexivity |].
  all: repeat match goal with
       | H : is_empty ?a = true |- _ => destruct a; [clear H | discriminate H]
       | H : exn_class_eqb _ _ = true |- _ => apply exn_class_eqb_eq in H
       | H : exn_class_eqb _ _ = false |- _ => apply exn_class_eqb_neq in H
       end.
  all: repeat match goal with
       | |- _ /\ _ => split
       | |- Forall _ _ => constructor; cbn [snd]
       | |- yields_none (Ok (VElems [])) => left; reflexivity
       | |- yields_none (Raise _) => right; eexists; split; [reflexivity | assumption]
       | |- _ => first [reflexivity | assumption]
       end.
Qed.

(** C4.  Collecting the links of any cards never raises, and the list then
    handed to the loop over the properties, [unique hrefs], has no
    duplicates, holds only URLs in which "/inmueble/" or "/proyecto/"
    occurs, and has the same members as the hrefs collected. *)
Theorem links_unique_and_accepted cards s :
  exists s' hrefs,
    collect_links drv cards s = (s', Ok hrefs) /\
    NoDup (unique hrefs) /\
    Forall accepted_url (unique hrefs) /\
    (forall u, In u (unique hrefs) <-> In u hrefs).
Proof.
  destruct (collect_links_run drv cards s) as (s' & hrefs & Hrun & Hacc & _).
  exists s', hrefs. split; [exact Hrun |].
  assert (Hmem : forall u, In u (unique hrefs) <-> In u hrefs).
  { intros u. unfold unique. rewrite <- !list_elem_of_In, elem_of_elements, elem_of_list_to_set.
    reflexivity. }
  split; [unfold unique; apply NoDup_elements |]. split; [| exact Hmem].
  apply List.Forall_forall. intros u Hu. apply Hmem in Hu.
  rewrite List.Forall_forall in Hacc. apply accepted_spec. apply Hacc. exact Hu.
Qed.

Ltac unsafe Hsafe :=
  exfalso;
  match goal with
  | H : save_screenshot _ ?f ?w = (_, Raise _) |- _ =>
      let Hok := fresh in
      destruct (Hsafe f w) as (? & ? & Hok); rewrite Hok in H; discriminate H
  end.

Lemma next_page_cases s :
  let '(s', r) := next_page drv cfg s in
  properties s' = properties s /\
  (page s' = page s \/ (page s' = page s + 1 /\ page s < MAX_PAGES cfg)) /\
  exists d, out s' = (out s ++ d)%list /\
    Forall (fun e => calm e = true) d /\
    (r = Ok Continue ->
       page s' = page s + 1 /\ page s < MAX_PAGES cfg /\
       Forall (fun e => low e = true) d) /\
    (next_page_failed d ->
       r <> Ok Continue /\ exists msg, In (Print (ErrorNavigating msg)) d) /\
    (snapshot_safe drv -> r = Ok Continue \/ r = Ok Break).
Proof.
  unfold next_page, find_next_button. unfold_run. steps.
  all: cbn [world out properties page fst snd outcome_map] in *.
  all: split; [reflexivity |].
  all: repeat match goal with
       | H : (_ <? _) = true |- _ => apply Z.ltb_lt in H
       end.
  all: split; [first [left; reflexivity | right; split; [reflexivity | assumption]] |].
  all: eexists; split; [rewrite <- ?app_assoc; cbn [app];
                        first [reflexivity | symmetry; apply app_nil_r] |].
  all: split; [repeat constructor |].
  all: split; [| split; [| intros Hsafe;
                           first [left; reflexivity | right; reflexivity | unsafe Hsafe]]].
  all: try (intros Hc; discriminate Hc).
  all: try (intros _; split; [reflexivity |]; split; [assumption |]; repeat constructor).
  all: intros (cx & ex & Hin & Hnav).
  all: first [ split; [discriminate | solve [eexists; pick_in]]
             | exfalso; only_one Hin; cbn in Hnav; discriminate Hnav ].
Qed.

Lemma page_error_run e s :
  let '(s', r) := page_error drv cfg e s in
  extends low s s' /\ r <> Ok Continue /\ (snapshot_safe drv -> r = Ok Break).
Proof.
  unfold page_error. unfold_run. steps.
  all: cbn [world out properties page fst snd outcome_map] in *.
  all: split; [solve_extends |]; split; [discriminate |].
  all: intros Hsafe; first [reflexivity | unsafe Hsafe].
Qed.

Lemma round_stop (s s' : state W E) r :
  extends calm (announced cfg s) s' -> r <> Ok Continue -> round cfg s s' r.
Proof.
  intros (Hp & Hm & d & Hd & Hf) Hr. split; [exact Hm |]. split; [left; exact Hp |].
  exists (Print Banner :: d). split.
  - rewrite Hd. cbn [announced out]. rewrite <- !app_assoc. reflexivity.
  - split; [constructor; [reflexivity | exact Hf] | intros Hc; contradiction].
Qed.

Lemma round_next (s s5 : state W E) :
  extends low (announced cfg s) s5 ->
  let '(s', r) := next_page drv cfg s5 in round cfg s s' r.
Proof.
  intros (Hp & Hm & d & Hd & Hf).
  pose proof (next_page_cases s5) as Hn.
  destruct (next_page drv cfg s5) as [s' r].
  destruct Hn as (Hprops & Hpage & dn & Hdn & Hcalm & Hcont & _ & _).
  cbn [announced properties page out] in *.
  split; [rewrite Hprops; exact Hm |]. split; [rewrite <- Hp; exact Hpage |].
  exists (Print Banner :: d ++ dn)%list. split.
  - rewrite Hdn, Hd, <- !app_assoc. reflexivity.
  - split.
    + constructor; [reflexivity |]. apply Forall_app. split; [| exact Hcalm].
      eapply Forall_impl; [exact Hf | apply low_calm].
    + intros Hc. destruct (Hcont Hc) as (H1 & H2 & H3). rewrite <- Hp.
      split; [exact H1 |]. split; [exact H2 |].
      constructor; [reflexivity |]. apply Forall_app. auto.
Qed.

Lemma page_body_round s :
  let '(s', r) := page_body drv cfg s in round cfg s s' r.
Proof.
  unfold page_body. unfold mbind, mret, M_bind, M_ret, get_page, print, emit.
  cbn [world out properties page]. fold (announced cfg s).
  pose proof (scroll_page_extends drv cfg (announced cfg s)) as H1.
  destruct (scroll_page drv cfg (announced cfg s)) as [s1 [[]|e]];
    [| apply round_stop; [eapply extends_weaken; [apply low_calm | exact H1] | discriminate]].
  pose proof (find_cards_extends drv s1) as H2.
  destruct (find_cards drv s1) as [s2 [cards|e]];
    [| apply round_stop; [eapply extends_weaken; [apply low_calm |];
                          eapply extends_trans; eassumption | discriminate]].
  pose proof (extends_trans _ _ _ _ H1 H2) as H12.
  destruct cards as [|card cards]; cbn [is_empty].
  - pose proof (report_no_cards_extends drv cfg s2) as H3.
    destruct (report_no_cards drv cfg s2) as [s3 [[]|e]];
      (apply round_stop; [| discriminate]);
      (eapply extends_trans; [eapply extends_weaken; [apply low_calm | exact H12] | exact H3]).
  - destruct (collect_links_run drv (card :: cards) s2) as (s3 & hrefs & -> & _ & H3).
    pose proof (extends_trans _ _ _ _ H12 H3) as H13.
    cbn [world out properties page].
    set (s4 := State (world s3) (out s3 ++ [Print (FoundUniqueUrls (length (unique hrefs)))])%list
                 (properties s3) (page s3)).
    assert (H4 : extends low (announced cfg s) s4).
    { eapply extends_trans; [exact H13 |]. unfold s4. solve_extends. }
    destruct (unique hrefs) as [|link links]; cbn [is_empty].
    + cbn [world out properties page].
      set (s5 := State (world s4) (out s4 ++ [Print NoValidLinks])%list (properties s4) (page s4)).
      assert (H5 : extends calm (announced cfg s) s5).
      { eapply extends_trans; [eapply extends_weaken; [apply low_calm | exact H4] |].
        unfold s5. solve_extends. }
      pose proof (take_screenshot_extends drv cfg "no_valid_links" s5) as H6.
      destruct (take_screenshot drv cfg "no_valid_links" s5) as [s6 [file|e]];
        destruct H6 as (H6 & _);
        (apply round_stop; [| discriminate]);
        (eapply extends_trans; [exact H5 | eapply extends_weaken; [apply low_calm | exact H6]]).
    + pose proof (scrape_each_extends drv cfg (link :: links) 1 (length (link :: links)) s4) as H5.
      destruct (scrape_each drv cfg 1 (length (link :: links)) (link :: links) s4) as [s5 [[]|e]].
      * apply round_next. eapply extends_trans; eassumption.
      * apply round_stop; [| discriminate].
        eapply extends_weaken; [apply low_calm |]. eapply extends_trans; eassumption.
Qed.

Lemma process_page_round s :
  let '(s', r) := process_page drv cfg s in
  round cfg s s' r /\ (snapshot_safe drv -> r = Ok Continue \/ r = Ok Break).
Proof.
  unfold process_page, try_catch.
  pose proof (page_body_round s) as Hb.
  destruct (page_body drv cfg s) as [s1 [c|e]].
  - split; [exact Hb |]. intros _. destruct c; auto.
  - pose proof (page_error_run e s1) as He.
    destruct (page_error drv cfg e s1) as [s' r].
    destruct He as (Hext & Hne & Hsafe). split; [| intros Hs; right; auto].
    destruct Hb as ([m Hm] & Hpage & d & Hd & Hcalm & _).
    destruct Hext as (Hp & [m' Hm'] & d' & Hd' & Hlow).
    split; [exists (m ++ m')%list; rewrite Hm', Hm, app_assoc; reflexivity |].
    split; [rewrite Hp; exact Hpage |].
    exists (d ++ d')%list. split; [rewrite Hd', Hd, <- !app_assoc; reflexivity |].
    split; [| intros Hc; contradiction].
    apply Forall_app. split; [exact Hcalm |].
    eapply Forall_impl; [exact Hlow | apply low_calm].
Qed.

End Cards.

(** ** Running the program: the walk over the result pages *)

Section Walk.


Context {W E : Type}.
Variable drv : Browser W E.
Variable cfg : config.

Lemma pages_of_app (a b : list (event E)) :
  pages_of (a ++ b) = (pages_of a ++ pages_of b)%list.
Proof. unfold pages_of. apply omap_app. Qed.

Lemma pages_of_calm (d : list (event E)) :
  Forall (fun e => calm e = true) d -> pages_of d = [].
Proof.
  induction 1 as [|e d He _ IH]; [reflexivity |].
  cbn. fold (pages_of d). rewrite IH.
  destruct e as [[]|]; try reflexivity. discriminate He.
Qed.

Lemma low_not_marker (e : event E) : low e = true -> stop_marker e = false.
Proof. unfold low. rewrite andb_true_iff, !negb_true_iff. tauto. Qed.

Lemma quiet_after_stop_app (a b : list (event E)) :
  Forall (fun e => stop_marker e = false) a ->
  quiet_after_stop (a ++ b) = quiet_after_stop b.
Proof.
  induction 1 as [|e a He _ IH]; [reflexivity |].
  cbn [app quiet_after_stop]. rewrite He. exact IH.
Qed.

Lemma quiet_after_stop_calm (d : list (event E)) :
  Forall (fun e => calm e = true) d -> quiet_after_stop d = true.
Proof.
  induction 1 as [|e d He Hd IH]; [reflexivity |].
  cbn [quiet_after_stop]. destruct (stop_marker e); [| exact IH].
  apply forallb_forall. apply List.Forall_forall. exact Hd.
Qed.


Lemma pagination_run fuel : forall s,
  (Z.to_nat (MAX_PAGES cfg + 1 - page s) <= fuel)%nat ->
  let '(s', r) := pagination drv cfg fuel s in
  r <> Ok false /\
  (exists more, properties s' = (properties s ++ more)%list) /\
  page s' <= Z.max (page s) (MAX_PAGES cfg) /\
  (exists d k, out s' = (out s ++ d)%list /\ pages_of d = seqZ (page s) k /\
     0 <= k <= Z.max 0 (MAX_PAGES cfg + 1 - page s) /\ quiet_after_stop d = true) /\
  (snapshot_safe drv -> r = Ok true).
Proof.
  induction fuel as [|fuel IH]; intros s Hfuel.
  - cbn [pagination]. unfold mbind, mret, M_bind, M_ret, get_page.
    destruct (Z.leb_spec (page s) (MAX_PAGES cfg)); [lia |].
    split; [discriminate |]. split; [exists []; now rewrite app_nil_r |].
    split; [lia |]. split; [| reflexivity].
    exists [], 0. rewrite app_nil_r. repeat split; try reflexivity; lia.
  - cbn [pagination]. unfold mbind, mret, M_bind, M_ret, get_page.
    destruct (Z.leb_spec (page s) (MAX_PAGES cfg)) as [Hle | Hgt].
    2:{ split; [discriminate |]. split; [exists []; now rewrite app_nil_r |].
        split; [lia |]. split; [| reflexivity].
        exists [], 0. rewrite app_nil_r. repeat split; try reflexivity; lia. }
    pose proof (process_page_round drv cfg s) as Hr.
    destruct (process_page drv cfg s) as [s1 r1].
    destruct Hr as ((Hm & Hpage & d & Hd & Hcalm & Hcont) & Hsafe).
    assert (Hstop : r1 <> Ok Continue ->
              page s1 <= Z.max (page s) (MAX_PAGES cfg) /\
              exists d0 k, out s1 = (out s ++ d0)%list /\ pages_of d0 = seqZ (page s) k /\
                0 <= k <= Z.max 0 (MAX_PAGES cfg + 1 - page s) /\ quiet_after_stop d0 = true).
    { intros _. split; [lia |]. eexists _, 1. split; [exact Hd |].
      split; [cbn; fold (pages_of d); now rewrite pages_of_calm |].
      split; [lia |]. cbn. now apply quiet_after_stop_calm. }
    destruct r1 as [[|]|e].
    + destruct (Hcont eq_refl) as (Hp1 & Hlt & Hlow).
      specialize (IH s1). rewrite Hp1 in IH.
      assert (Hf : (Z.to_nat (MAX_PAGES cfg + 1 - (page s + 1)) <= fuel)%nat) by lia.
      specialize (IH Hf).
      destruct (pagination drv cfg fuel s1) as [s2 r2].
      destruct IH as (Hne & [m2 Hm2] & Hpg & (d2 & k & Hd2 & Hpages & Hk & Hq) & Hs).
      split; [exact Hne |]. split.
      { destruct Hm as [m1 Hm1]. exists (m1 ++ m2)%list. now rewrite Hm2, Hm1, app_assoc. }
      split; [lia |]. split; [| exact Hs].
      exists ((Print Banner :: Print (ProcessingPage (page s) (MAX_PAGES cfg)) :: d) ++ d2)%list,
             (1 + k).
      split; [rewrite Hd2, Hd, <- app_assoc; reflexivity |].
      split.
      { rewrite pages_of_app, Hpages. cbn. fold (pages_of d). rewrite pages_of_calm by exact Hcalm.
        cbn [app]. rewrite (seqZ_cons (page s) (1 + k)) by lia.
        f_equal. f_equal; lia. }
      split; [lia |].
      rewrite quiet_after_stop_app; [exact Hq |].
      constructor; [reflexivity |]. constructor; [reflexivity |].
      eapply Forall_impl; [exact Hlow | apply low_not_marker].
    + destruct Hstop as (Hpg & Hlog); [discriminate |].
      split; [discriminate |]. split; [exact Hm |]. split; [exact Hpg |]. split; [exact Hlog | reflexivity].
    + destruct Hstop as (Hpg & Hlog); [discriminate |].
      split; [discriminate |]. split; [exact Hm |]. split; [exact Hpg |]. split; [exact Hlog |].
      intros Hs. destruct (Hsafe Hs); discriminate.
Qed.


Lemma accept_cookies_run s :
  exists s', accept_cookies drv cfg s = (s', Ok tt) /\ extends low s s'.
Proof.
  unfold accept_cookies. unfold_run. steps.
  all: cbn [world out properties page fst snd outcome_map] in *.
  all: eexists; split; [repeat f_equal; match goal with u : unit |- _ => destruct u end; reflexivity
                        || reflexivity |].
  all: solve_extends.
Qed.

Lemma scrape_search_results_run fuel s :
  (Z.to_nat (MAX_PAGES cfg) <= fuel)%nat ->
  let '(s', r) := scrape_search_results drv cfg fuel s in
  r <> Ok None /\
  (exists d k, out s' = (out s ++ d)%list /\ pages_of d = seqZ 1 k /\
     0 <= k <= Z.max 0 (MAX_PAGES cfg) /\ quiet_after_stop d = true) /\
  (forall res, r = Ok res -> res = Some (properties s')) /\
  (snapshot_safe drv ->
     r = Ok (Some (properties s')) \/
     exists w e, navigate drv (SEARCH_URL cfg) (world s) = (w, Raise e) /\ r = Raise e).
Proof.
  intros Hfuel.
  unfold scrape_search_results, sleep.
  unfold mbind, mret, M_bind, M_ret, print, emit, driver_get, perform,
    set_properties, set_page, get_properties.
  cbn [world out properties page].
  destruct (navigate drv (SEARCH_URL cfg) (world s)) as [w [[]|e]] eqn:Hnav;
    cbn [outcome_map].
  2:{ split; [discriminate |]. split; [| split; [discriminate | intros _; right; eauto]].
      eexists _, 0. split; [rewrite <- app_assoc; reflexivity |].
      repeat split; try reflexivity; lia. }
  match goal with
  | |- context [take_screenshot drv cfg "initial_page" ?s1] =>
      pose proof (take_screenshot_extends drv cfg "initial_page" s1) as H1;
      destruct (take_screenshot drv cfg "initial_page" s1) as [s2 r2];
      assert (H0 : extends low s s1) by solve_extends
  end.
  destruct H1 as (H1 & _ & Hshot).
  pose proof (extends_trans _ _ _ _ H0 H1) as H2.
  destruct r2 as [file|e].
  2:{ destruct H2 as (_ & _ & d & Hd & Hlow).
      split; [discriminate |]. split; [| split; [discriminate |]].
      - exists d, 0. split; [exact Hd |].
        split; [apply pages_of_calm; eapply Forall_impl; [exact Hlow | apply low_calm] |].
        split; [lia |]. apply quiet_after_stop_calm.
        eapply Forall_impl; [exact Hlow | apply low_calm].
      - intros Hs. destruct (Hshot Hs) as [f Hf]. discriminate Hf. }
  destruct (accept_cookies_run s2) as (s3 & -> & H3).
  pose proof (extends_trans _ _ _ _ H2 H3) as H4.
  cbn [world out properties page].
  match goal with
  | |- context [pagination drv cfg fuel ?s4] =>
      pose proof (pagination_run fuel s4) as Hp;
      destruct (pagination drv cfg fuel s4) as [s5 r5]
  end.
  cbn [page out properties] in Hp.
  destruct Hp as (Hne & _ & _ & (d & k & Hd & Hpages & Hk & Hq) & Hsafe); [lia |].
  destruct H4 as (_ & _ & d0 & Hd0 & Hlow).
  assert (Hlog : exists d k, out s5 = (out s ++ d)%list /\ pages_of d = seqZ 1 k /\
            0 <= k <= Z.max 0 (MAX_PAGES cfg) /\ quiet_after_stop d = true).
  { exists (d0 ++ d)%list, k. split; [rewrite Hd, Hd0, app_assoc; reflexivity |].
    split; [rewrite pages_of_app, Hpages, pages_of_calm;
            [reflexivity | eapply Forall_impl; [exact Hlow | apply low_calm]] |].
    split; [lia |]. rewrite quiet_after_stop_app; [exact Hq |].
    eapply Forall_impl; [exact Hlow | apply low_not_marker]. }
  destruct r5 as [[|]|e].
  - split; [discriminate |]. split; [exact Hlog |].
    split; [intros res Hres; injection Hres as <-; reflexivity | intros _; left; reflexivity].
  - destruct Hne. reflexivity.
  - split; [discriminate |]. split; [exact Hlog |]. split; [discriminate |].
    intros Hs. specialize (Hsafe Hs). discriminate Hsafe.
Qed.



End Walk.

(** ** Running the program: main *)

Section Main.

Context {W E : Type}.
Variable drv : Browser W E.
Variable cfg : config.

(** C9 (amended).  When the driver starts, the walk returns its records,
    the output file can be written and the session closes, [main] returns
    no value; after the walk it adds to the log only this: the request to
    write all the records, in order, under the field names of the first,
    and the number of records saved --- or, with no record, the message
    that no data was scraped --- and then the closing of the session. *)
Theorem main_saves_and_reports_a_count fuel s s1 s2 results w3 w4 :
  init_driver drv cfg
    (State (world s) (out s ++ [Print Starting])%list (properties s) (page s)) = (s1, Ok tt) ->
  scrape_search_results drv cfg fuel s1 = (s2, Ok (Some results)) ->
  (if is_empty results then w3 = world s2
   else write_csv drv (OUTPUT_FILE cfg) (fieldnames_of results) results (world s2)
        = (w3, Ok tt)) ->
  quit drv w3 = (w4, Ok tt) ->
  main drv cfg fuel s =
  (State w4
     (out s2 ++
      (if is_empty results then [Print NoDataScraped]
       else [Call (WriteCsv (OUTPUT_FILE cfg) (fieldnames_of results) results) (Ok VUnit);
             Print (Saved (length results) (OUTPUT_FILE cfg))]) ++
      [Call Quit (Ok VUnit); Print BrowserClosed])%list
     (properties s2) (page s2),
   Ok (Some tt)).
Proof.
  intros Hinit Hwalk Hcsv Hquit.
  unfold main. unfold mbind at 1 2. unfold M_bind at 1 2.
  unfold print at 1, emit. rewrite Hinit.
  unfold try_finally, try_catch. unfold mbind at 1. unfold M_bind at 1. rewrite Hwalk.
  destruct results as [|first rest]; cbn [is_empty negb] in *.
  - subst w3. unfold_run. cbn [world out properties page]. rewrite Hquit.
    cbn [world out properties page outcome_map unit_value].
    rewrite <- !app_assoc. reflexivity.
  - unfold_run. cbn [world out properties page]. rewrite Hcsv.
    cbn [world out properties page outcome_map unit_value]. rewrite Hquit.
    cbn [world out properties page outcome_map unit_value].
    rewrite <- !app_assoc. reflexivity.
Qed.
End Main.

(** ** Further properties: the fields of a record *)

Lemma all_str_strings vs fs : all_str vs = Ok fs -> vs = map PStr fs.
Proof.
  revert fs; induction vs as [|v vs IH]; intros fs H.
  - injection H as <-. reflexivity.
  - destruct v; try discriminate H. cbn [all_str] in H.
    apply outcome_bind_ok in H. destruct H as (fs' & Hfs & H). injection H as <-.
    cbn [map]. f_equal. apply IH. exact Hfs.
Qed.

(** One round of the comprehension of line 98 on a dict. *)
Lemma image_urls_dict d imgs :
  image_urls (PDict d :: imgs) =
  match dict_lookup "url" d with
  | Some v => if truthy v then us ← image_urls imgs; Ok (v :: us) else image_urls imgs
  | None => image_urls imgs
  end.
Proof.
  cbn [image_urls py_get].
  destruct (dict_lookup "url" d) as [v|]; rewrite bind_Ok; cbn; [| reflexivity].
  destruct (truthy v); reflexivity.
Qed.

Lemma falsy_image_url d v :
  dict_lookup "url" d = Some v -> truthy v = false -> image_url (PDict d) = None.
Proof.
  intros Hl Ht. cbn [image_url]. rewrite Hl.
  destruct v as [| | | |s| |]; try reflexivity. destruct s; [reflexivity | discriminate Ht].
Qed.

Lemma truthy_string v :
  is_str v = true -> truthy v = true -> exists c s, v = PStr (String c s).
Proof.
  destruct v as [| | | |s| |]; try discriminate. intros _.
  destruct s as [|c s]; [discriminate | eauto].
Qed.

Lemma image_urls_entries imgs :
  forallb image_entry imgs = true ->
  image_urls imgs ≫= all_str = Ok (omap image_url imgs).
Proof.
  induction imgs as [|img imgs IH]; [reflexivity |].
  cbn [forallb]. rewrite andb_true_iff. intros [Himg Hrest]. specialize (IH Hrest).
  destruct img as [| | | | | |d]; try discriminate Himg.
  rewrite image_urls_dict. cbn [image_entry] in Himg.
  change (omap image_url (PDict d :: imgs))
    with (match image_url (PDict d) with
          | Some u => u :: omap image_url imgs
          | None => omap image_url imgs
          end).
  destruct (dict_lookup "url" d) as [v|] eqn:Hl.
  - destruct (truthy v) eqn:Ht.
    + rewrite orb_false_r in Himg.
      destruct (truthy_string v Himg Ht) as (c & s & ->).
      cbn [image_url]. rewrite Hl.
      destruct (image_urls imgs) as [us|e]; [| discriminate IH].
      rewrite bind_Ok in IH. rewrite !bind_Ok. cbn [all_str]. rewrite IH. reflexivity.
    + rewrite (falsy_image_url d v Hl Ht). exact IH.
  - cbn [image_url]. rewrite Hl. exact IH.
Qed.

Lemma image_urls_bad_entry imgs :
  forallb image_entry imgs = false -> is_ok (image_urls imgs ≫= all_str) = false.
Proof.
  induction imgs as [|img imgs IH]; [discriminate |].
  cbn [forallb]. rewrite andb_false_iff.
  destruct img as [| | | | | |d]; try reflexivity.
  rewrite image_urls_dict. cbn [image_entry].
  destruct (dict_lookup "url" d) as [v|] eqn:Hl.
  - destruct (truthy v) eqn:Ht; cbn [negb]; rewrite ?orb_false_r, ?orb_true_r.
    + intros H. destruct (image_urls imgs) as [us|e]; [| reflexivity].
      rewrite !bind_Ok in *.
      destruct H as [H | H].
      * destruct v; try discriminate H; reflexivity.
      * specialize (IH H). cbn [is_ok] in IH.
        destruct v; try reflexivity. cbn [all_str].
        destruct (all_str us); [discriminate IH | reflexivity].
    + intros [H | H]; [discriminate H | apply IH; exact H].
  - intros [H | H]; [discriminate H | apply IH; exact H].
Qed.

Lemma images_field url items imgs f :
  property_fields url (PDict items) = Ok f ->
  item "images" (PList []) items = PList imgs ->
  forallb image_entry imgs = true /\
  dict_lookup "images" f = Some (PStr (String.concat "; " (omap image_url imgs))).
Proof.
  intros Hf Himgs.
  destruct (forallb image_entry imgs) eqn:Hall.
  - split; [reflexivity |]. apply property_fields_inv in Hf.
    destruct Hf as (items' & images & price & currency & address & nb & city & descr
                    & feats & bname & bphone & joined & Heq & Himg & _ & _ & _
                    & _ & _ & _ & _ & _ & _ & Hjoin & ->).
    injection Heq as <-. rewrite Himgs in Himg. cbn [py_iter] in Himg. rewrite bind_Ok in Himg.
    pose proof (image_urls_entries imgs Hall) as He. rewrite Himg, bind_Ok in He.
    unfold py_join in Hjoin. cbn [py_iter] in Hjoin. rewrite bind_Ok, He, bind_Ok in Hjoin.
    injection Hjoin as <-. reflexivity.
  - exfalso.
    assert (Hok : fields_ok items = true).
    { rewrite <- property_fields_ok with (url := url), Hf. reflexivity. }
    unfold fields_ok, fields_ok_of in Hok.
    rewrite Himgs in Hok. cbn [py_iter] in Hok. rewrite bind_Ok in Hok.
    pose proof (image_urls_bad_entry imgs Hall) as He.
    destruct (image_urls imgs) as [us|e]; [| discriminate Hok].
    rewrite bind_Ok in He. unfold py_join in Hok. cbn [py_iter] in Hok.
    rewrite bind_Ok in Hok.
    destruct (all_str us); [discriminate He |]. rewrite bind_Raise in Hok.
    cbn [is_ok] in Hok. rewrite !andb_false_r in Hok. discriminate Hok.
Qed.

Lemma features_field url items vs f :
  property_fields url (PDict items) = Ok f ->
  item "features" (PList []) items = PList vs ->
  exists fs, vs = map PStr fs /\
             dict_lookup "features" f = Some (PStr (String.concat ", " fs)).
Proof.
  intros Hf Hvs. apply property_fields_inv in Hf.
  destruct Hf as (items' & images & price & currency & address & nb & city & descr
                  & feats & bname & bphone & joined & Heq & _ & _ & _ & _
                  & _ & _ & _ & Hfeat & _ & _ & _ & ->).
  injection Heq as <-. rewrite Hvs in Hfeat. unfold py_join in Hfeat.
  cbn [py_iter] in Hfeat. rewrite bind_Ok in Hfeat.
  apply outcome_bind_ok in Hfeat. destruct Hfeat as (fs & Hfs & H). injection H as <-.
  exists fs. split; [apply all_str_strings; exact Hfs | reflexivity].
Qed.

Lemma copied_fields url items f :
  property_fields url (PDict items) = Ok f ->
  dict_lookup "url" f = Some (PStr url) /\
  forall field path v,
    In (field, path) COPIED -> reach path (PDict items) = Some v ->
    dict_lookup field f = Some v.
Proof.
  intros Hf. apply property_fields_inv in Hf.
  destruct Hf as (items' & images & price & currency & address & nb & city & descr
                  & feats & bname & bphone & joined & Heq & _ & Hprice & Hcur & Haddr
                  & Hnb & Hcity & _ & _ & Hbn & Hbp & _ & ->).
  injection Heq as <-. split; [reflexivity |].
  intros field path v Hin Hv. unfold COPIED in Hin. cbn [In] in Hin.
  repeat match type of Hin with
  | _ \/ _ => destruct Hin as [Hin | Hin]
  | False => destruct Hin
  end; injection Hin as <- <-; cbn [reach] in Hv; unfold item in *.
  all: repeat match type of Hv with
       | context [match ?x with _ => _ end] =>
           lazymatch x with
           | context [match _ with _ => _ end] => fail
           | _ => destruct x eqn:?; try discriminate Hv
           end
       end.
  all: injection Hv as <-.
  all: cbn in *.
  all: repeat match goal with
       | Hl : dict_lookup ?k ?d = _, H : context [dict_lookup ?k ?d] |- _ =>
           lazymatch type of H with
           | dict_lookup k d = _ => fail
           | _ => rewrite Hl in H; cbn in H
           end
       end.
  all: repeat match goal with
       | H : Ok _ = Ok _ |- _ => injection H as <-
       end.
  all: reflexivity.
Qed.

Lemma needed_shapes url items f :
  property_fields url (PDict items) = Ok f ->
  (forall key v, In key ["price"; "location"; "broker"] ->
                 dict_lookup key items = Some v -> is_dict v = true) /\
  (forall v, dict_lookup "description" items = Some v -> is_str v = true) /\
  (forall loc key v, dict_lookup "location" items = Some (PDict loc) ->
                     In key ["neighborhood"; "city"] ->
                     dict_lookup key loc = Some v -> is_dict v = true).
Proof.
  intros Hf.
  assert (Hok : fields_ok items = true).
  { rewrite <- property_fields_ok with (url := url), Hf. reflexivity. }
  unfold fields_ok, fields_ok_of in Hok.
  destruct (py_iter (item "images" (PList []) items) ≫= image_urls); [| discriminate Hok].
  repeat (apply andb_prop in Hok; destruct Hok as [Hok ?]).
  unfold item in *.
  split; [| split].
  - intros key v Hin Hv. cbn [In] in Hin.
    destruct Hin as [<- | [<- | [<- | []]]]; rewrite Hv in *; assumption.
  - intros v Hv. rewrite Hv in *. assumption.
  - intros loc key v Hloc Hin Hv. rewrite Hloc in *. cbn [default from_option id] in *.
    match goal with H : (_ && _) = true |- _ => apply andb_prop in H; destruct H end.
    cbn [In] in Hin. destruct Hin as [<- | [<- | []]]; rewrite Hv in *; assumption.
Qed.

Section Fields.

Context {W E : Type}.
Variable drv : Browser W E.
Variable cfg : config.

(** X1.  When a visit returns a record and the images of the listing it
    read are a list, every entry of that list is a dict whose url is
    missing, falsy or a string, and the images field lists the non-empty
    urls, in order, joined by "; ". *)
Theorem images_are_the_nonempty_urls url s s' rec d text json items imgs :
  scrape_property_page drv cfg url s = (s', Ok (Some rec)) ->
  out s' = (out s ++ d)%list ->
  payload_read d text ->
  loads drv text = Ok json ->
  listing_of json = Ok (PDict items) ->
  item "images" (PList []) items = PList imgs ->
  forallb image_entry imgs = true /\
  dict_lookup "images" rec = Some (PStr (String.concat "; " (omap image_url imgs))).
Proof.
  intros Hrun Hout Hread Hloads Hlisting Himgs.
  destruct (scrape_property_page_record _ _ _ _ _ _ _ _ _ _ Hrun Hout Hread Hloads Hlisting)
    as (items' & fields & now & Heq & Hf & ->).
  injection Heq as <-.
  destruct (images_field url items imgs fields Hf Himgs) as [Hall Hfield].
  split; [exact Hall | apply dict_lookup_app_l; exact Hfield].
Qed.

(** X2.  When a visit returns a record and the features of the listing it
    read are a list, they are all strings and the features field is these
    strings joined by ", ". *)
Theorem features_are_joined url s s' rec d text json items vs :
  scrape_property_page drv cfg url s = (s', Ok (Some rec)) ->
  out s' = (out s ++ d)%list ->
  payload_read d text ->
  loads drv text = Ok json ->
  listing_of json = Ok (PDict items) ->
  item "features" (PList []) items = PList vs ->
  exists fs, vs = map PStr fs /\
             dict_lookup "features" rec = Some (PStr (String.concat ", " fs)).
Proof.
  intros Hrun Hout Hread Hloads Hlisting Hvs.
  destruct (scrape_property_page_record _ _ _ _ _ _ _ _ _ _ Hrun Hout Hread Hloads Hlisting)
    as (items' & fields & now & Heq & Hf & ->).
  injection Heq as <-.
  destruct (features_field url items vs fields Hf Hvs) as (fs & Hfs & Hfield).
  exists fs. split; [exact Hfs | apply dict_lookup_app_l; exact Hfield].
Qed.

(** X3.  A record returned by a visit holds the URL that was visited, and
    each of the seventeen copied fields holds the value found in the
    listing under its keys, whatever its type, unchanged. *)
Theorem present_values_are_copied url s s' rec d text json items :
  scrape_property_page drv cfg url s = (s', Ok (Some rec)) ->
  out s' = (out s ++ d)%list ->
  payload_read d text ->
  loads drv text = Ok json ->
  listing_of json = Ok (PDict items) ->
  dict_lookup "url" rec = Some (PStr url) /\
  forall field path v,
    In (field, path) COPIED -> reach path (PDict items) = Some v ->
    dict_lookup field rec = Some v.
Proof.
  intros Hrun Hout Hread Hloads Hlisting.
  destruct (scrape_property_page_record _ _ _ _ _ _ _ _ _ _ Hrun Hout Hread Hloads Hlisting)
    as (items' & fields & now & Heq & Hf & ->).
  injection Heq as <-.
  destruct (copied_fields url items fields Hf) as [Hurl Hcopy].
  split; [apply dict_lookup_app_l; exact Hurl |].
  intros field path v Hin Hv. apply dict_lookup_app_l. eapply Hcopy; eassumption.
Qed.

(** X4.  A visit returns a record only for a listing of the expected
    shape: price, location and broker, where present, are dicts, so are
    the neighborhood and the city of the location, and the description,
    where present, is a string. *)
Theorem records_need_the_expected_shape url s s' rec d text json items :
  scrape_property_page drv cfg url s = (s', Ok (Some rec)) ->
  out s' = (out s ++ d)%list ->
  payload_read d text ->
  loads drv text = Ok json ->
  listing_of json = Ok (PDict items) ->
  (forall key v, In key ["price"; "location"; "broker"] ->
                 dict_lookup key items = Some v -> is_dict v = true) /\
  (forall v, dict_lookup "description" items = Some v -> is_str v = true) /\
  (forall loc key v, dict_lookup "location" items = Some (PDict loc) ->
                     In key ["neighborhood"; "city"] ->
                     dict_lookup key loc = Some v -> is_dict v = true).
Proof.
  intros Hrun Hout Hread Hloads Hlisting.
  destruct (scrape_property_page_record _ _ _ _ _ _ _ _ _ _ Hrun Hout Hread Hloads Hlisting)
    as (items' & fields & now & Heq & Hf & ->).
  injection Heq as <-.
  eapply needed_shapes. exact Hf.
Qed.

End Fields.

(** ** Further properties: one visit *)

(** Close a goal [snapshot_of cfg names file] on an explicit file name. *)
Ltac snap := do 2 eexists; split; [| reflexivity]; pick_in.

Section VisitConduct.

Context {W E : Type}.
Variable drv : Browser W E.
Variable cfg : config.

(** X5.  [take_screenshot] does not look at the answer of the driver:
    whenever the request does not raise, even if it answers that the file
    could not be written, the file is reported as saved and its name,
    built from the debug directory, the given name and the time stamp, is
    returned; when the request raises, so does [take_screenshot], and
    nothing is reported.  The records and the page number stay. *)
Theorem screenshot_answer_is_ignored name s :
  let '(s', r) := take_screenshot drv cfg name s in
  properties s' = properties s /\ page s' = page s /\
  exists ts w w' a,
    strftime drv "%Y%m%d-%H%M%S" (world s) = (w, ts) /\
    save_screenshot drv (DEBUG_DIR cfg +:+ "/" +:+ name +:+ "_" +:+ ts +:+ ".png") w = (w', a) /\
    world s' = w' /\
    match a with
    | Ok b =>
        r = Ok (DEBUG_DIR cfg +:+ "/" +:+ name +:+ "_" +:+ ts +:+ ".png") /\
        exists before,
          out s' = (before ++ [Print (SavedScreenshot
                     (DEBUG_DIR cfg +:+ "/" +:+ name +:+ "_" +:+ ts +:+ ".png"))])%list
    | Raise e =>
        r = Raise e /\
        forall file, ~ In (Print (SavedScreenshot file)) (skipn (length (out s)) (out s'))
    end.
Proof.
  unfold take_screenshot. unfold_run. unfold screenshot_file.
  destruct (strftime drv "%Y%m%d-%H%M%S" (world s)) as [w ts] eqn:Hts.
  cbn [world out properties page outcome_map].
  destruct (save_screenshot drv _ w) as [w' a] eqn:Hshot.
  destruct a as [b|e]; cbn [world out properties page outcome_map].
  - split; [reflexivity |]. split; [reflexivity |].
    exists ts, w, w', (Ok b). split; [reflexivity |]. split; [exact Hshot |].
    split; [reflexivity |]. split; [reflexivity |]. eexists. reflexivity.
  - split; [reflexivity |]. split; [reflexivity |].
    exists ts, w, w', (Raise e). split; [reflexivity |]. split; [exact Hshot |].
    split; [reflexivity |]. split; [reflexivity |].
    intros file Hin. rewrite <- app_assoc, skipn_app, skipn_all, Nat.sub_diag in Hin.
    cbn in Hin. destruct Hin as [H | [H | []]]; discriminate H.
Qed.

(** X6.  A visit waits for the title of the detail page, and for the
    listing container only after the wait for the title timed out; every
    other outcome of the first wait ends the waiting.  The data script is
    looked up only after one of the two waits succeeded. *)
Theorem second_wait_only_after_timeout url s :
  let '(s', r) := scrape_property_page drv cfg url s in
  exists d, out s' = (out s ++ d)%list /\
    ((waits d = [] /\ exists e, r = Raise e /\ In (Call (Get url) (Raise e)) d) \/
     (exists r1, waits d = [(READY_TITLE, r1)] /\
                 forall e, r1 = Raise e -> exn_cls e <> TimeoutException) \/
     (exists e r2, waits d = [(READY_TITLE, Raise e); (READY_CONTAINER, r2)] /\
                   exn_cls e = TimeoutException)) /\
    (forall r0, In (Call (FindElement None XPATH "//script[@id='__NEXT_DATA__']") r0) d ->
                exists el, last (waits d) = Some (READY_TITLE, Ok (VElem el)) \/
                           last (waits d) = Some (READY_CONTAINER, Ok (VElem el))).
Proof.
  unfold scrape_property_page. unfold_run.
  steps.
  all: cbn [world out properties page fst snd outcome_map].
  all: eexists; (split; [rewrite <- ?app_assoc; cbn [app]; reflexivity |]).
  all: repeat match goal with
       | H : exn_class_eqb _ _ = true |- _ => apply exn_class_eqb_eq in H
       | H : exn_class_eqb _ _ = false |- _ => apply exn_class_eqb_neq in H
       end.
  all: split;
       [ first [ solve [left; split; [reflexivity | eexists; split; [reflexivity | pick_in]]]
               | solve [right; left; eexists; split;
                        [reflexivity | intros ? Hr; first [discriminate Hr | injection Hr as <-; assumption]]]
               | solve [right; right; do 2 eexists; split; [reflexivity | assumption]] ]
       | intros r0 Hin; only_one Hin; eexists;
         first [left; reflexivity | right; reflexivity] ].
Qed.

(** X7.  The screenshots of a visit tell how it ended.  A visit that
    returns a record takes none.  A visit that returns nothing took one
    that was saved, and before it at most the no-listing one that raised.
    A visit that raises either could not load the page and took none, or
    raises what its last screenshot request raised. *)
Theorem visit_screenshots url s :
  let '(s', r) := scrape_property_page drv cfg url s in
  exists d, out s' = (out s ++ d)%list /\
    match r with
    | Ok (Some _) => screenshots d = []
    | Ok None =>
        exists first file b,
          screenshots d = (first ++ [(file, Ok (VBool b))])%list /\
          ((first = [] /\ snapshot_of cfg ["no_listing_data"; "property_error"] file) \/
           (exists file0 e, first = [(file0, Raise e)] /\
              snapshot_of cfg ["no_listing_data"] file0 /\
              snapshot_of cfg ["property_error"] file))
    | Raise e =>
        (screenshots d = [] /\ In (Call (Get url) (Raise e)) d) \/
        exists first file,
          screenshots d = (first ++ [(file, Raise e)])%list /\
          snapshot_of cfg ["property_error"] file /\
          (first = [] \/
           exists file0 e0, first = [(file0, Raise e0)] /\
             snapshot_of cfg ["no_listing_data"] file0)
    end.
Proof.
  unfold scrape_property_page. unfold_run.
  steps.
  all: cbn [world out properties page fst snd outcome_map].
  all: eexists; (split; [rewrite <- ?app_assoc; cbn [app]; reflexivity |]).
  all: try reflexivity.
  all: first
    [ solve [left; split; [reflexivity | pick_in]]
    | solve [right; exists []; eexists; split; [reflexivity |];
             split; [snap | left; reflexivity]]
    | solve [right; eexists [_]; eexists; split; [reflexivity |];
             split; [snap |]; right; do 2 eexists; split; [reflexivity | snap]]
    | solve [exists []; do 2 eexists; split; [reflexivity |]; left;
             split; [reflexivity | snap]]
    | solve [eexists [_]; do 2 eexists; split; [reflexivity |]; right;
             do 2 eexists; split; [reflexivity |]; split; snap]
    ].
Qed.

End VisitConduct.

(** ** Further properties: links and the next-page control *)

Section Links.

Context {W E : Type}.
Variable drv : Browser W E.
Variable cfg : config.

Lemma card_link_at_most_one card s :
  let '(s', r) := card_link drv card s in
  forall hrefs, r = Ok hrefs -> (length hrefs <= 1)%nat.
Proof.
  unfold card_link. unfold_run. steps.
  all: intros hrefs Hr; try discriminate Hr; injection Hr as <-.
  all: try (cbn; lia).
  all: match goal with o : option string |- _ => destruct o; cbn; lia end.
Qed.

Lemma unique_length links : (length (unique links) <= length links)%nat.
Proof.
  unfold unique. apply submseteq_length. apply NoDup_submseteq.
  - apply NoDup_elements.
  - intros x Hx. apply elem_of_elements, elem_of_list_to_set in Hx. exact Hx.
Qed.

(** X8.  Each card contributes at most one link: the links collected
    from the cards of a page, and so the unique links that are visited,
    are at most as many as the cards. *)
Theorem at_most_one_link_per_card cards : forall s,
  exists s' hrefs,
    collect_links drv cards s = (s', Ok hrefs) /\
    (length (unique hrefs) <= length hrefs <= length cards)%nat.
Proof.
  induction cards as [|card rest IH]; intros s.
  - exists s, []. split; [reflexivity |]. split; [apply unique_length | reflexivity].
  - cbn [collect_links]. unfold mbind, M_bind.
    pose proof (card_link_at_most_one card s) as Hone.
    destruct (card_link_run drv card s) as (s1 & found & Hrun & _). rewrite Hrun in *.
    specialize (Hone found eq_refl).
    destruct (IH s1) as (s2 & more & -> & _ & Hlen).
    exists s2, (found ++ more)%list. split; [reflexivity |].
    split; [apply unique_length |]. rewrite length_app. cbn [length]. lia.
Qed.

(** One visit loads its page once. *)
Lemma scrape_property_page_visited url s :
  let '(s', r) := scrape_property_page drv cfg url s in
  exists d, out s' = (out s ++ d)%list /\ visited d = [url].
Proof.
  unfold scrape_property_page. unfold_run. steps.
  all: cbn [world out properties page fst snd outcome_map].
  all: eexists; (split; [rewrite <- ?app_assoc; cbn [app]; reflexivity | reflexivity]).
Qed.

Lemma visited_app (a b : list (event E)) : visited (a ++ b) = (visited a ++ visited b)%list.
Proof. unfold visited. apply omap_app. Qed.

(** X9.  The links of a page are visited in the order given, each loaded
    once and never again: the pages loaded are a prefix of the links, all
    of them when the loop ends normally, and the records appended carry
    URLs of the pages loaded, in the same order. *)
Theorem links_are_visited_once_in_order links : forall i n s,
  let '(s', r) := scrape_each drv cfg i n links s in
  exists d more,
    out s' = (out s ++ d)%list /\
    properties s' = (properties s ++ more)%list /\
    visited d `prefix_of` links /\
    (is_ok r = true -> visited d = links) /\
    map (dict_lookup "url") more `sublist_of` map (fun u => Some (PStr u)) (visited d).
Proof.
  induction links as [|url rest IH]; intros i n s.
  - exists [], []. cbn. rewrite !app_nil_r. repeat split; try reflexivity; constructor.
  - cbn [scrape_each]. unfold_run. cbn [world out properties page].
    match goal with
    | |- context [scrape_property_page drv cfg url ?s1] =>
        pose proof (scrape_property_page_visited url s1) as Hv;
        pose proof (scrape_property_page_cases drv cfg url s1) as Hc;
        destruct (scrape_property_page drv cfg url s1) as [s2 r2]
    end.
    destruct Hv as (dv & Hdv & Hvis). cbn [out properties] in Hdv, Hc.
    destruct Hc as (Hprops & _ & d0 & _ & _ & Hc).
    assert (Hrec : forall rec, r2 = Ok (Some rec) -> dict_lookup "url" rec = Some (PStr url)).
    { intros rec Hr. rewrite Hr in Hc.
      destruct Hc as (el & text & json & listing & fields & now & _ & _ & _ & _ & _ & Hf & _ & ->).
      apply dict_lookup_app_l.
      destruct (property_fields_inv _ _ _ Hf)
        as (? & ? & ? & ? & ? & ? & ? & ? & ? & ? & ? & ? & _ & _ & _ & _ & _
            & _ & _ & _ & _ & _ & _ & _ & ->).
      reflexivity. }
    clear Hc.
    assert (Hhead : forall (rest' : list (event E)),
              visited ((Print (ProcessingProperty i n (str_take 70 url)) :: dv) ++ rest')
              = url :: visited rest').
    { intros rest'. rewrite visited_app. change (visited (Print _ :: dv)) with (visited dv).
      rewrite Hvis. reflexivity. }
    destruct r2 as [[rec|]|e]; [destruct (truthy (PDict rec)) |..];
      cbn [world out properties page].
    + match goal with
      | |- context [scrape_each drv cfg ?j n rest ?s3] =>
          specialize (IH j n s3); destruct (scrape_each drv cfg j n rest s3) as [s4 r4]
      end.
      destruct IH as (d & more & Hd & Hm & Hpre & Hall & Hsub).
      cbn [out properties] in Hd, Hm.
      exists ((Print (ProcessingProperty i n (str_take 70 url)) :: dv) ++ d)%list, (rec :: more).
      rewrite Hhead.
      split; [destruct r4; cbn [out]; rewrite Hd, Hdv, <- !app_assoc; reflexivity |].
      split; [destruct r4; cbn [properties]; rewrite Hm, Hprops, <- !app_assoc; reflexivity |].
      split; [apply prefix_cons; exact Hpre |].
      split; [destruct r4; cbn [is_ok]; intros H; [f_equal; apply Hall; reflexivity | discriminate H] |].
      cbn [map]. rewrite (Hrec rec eq_refl). apply sublist_skip. exact Hsub.
    + specialize (IH (i + 1) n s2). destruct (scrape_each drv cfg (i + 1) n rest s2) as [s4 r4].
      destruct IH as (d & more & Hd & Hm & Hpre & Hall & Hsub).
      exists ((Print (ProcessingProperty i n (str_take 70 url)) :: dv) ++ d)%list, more.
      rewrite Hhead.
      split; [destruct r4; cbn [out]; rewrite Hd, Hdv, <- !app_assoc; reflexivity |].
      split; [destruct r4; cbn [properties]; rewrite Hm, Hprops; reflexivity |].
      split; [apply prefix_cons; exact Hpre |].
      split; [destruct r4; cbn [is_ok]; intros H; [f_equal; apply Hall; reflexivity | discriminate H] |].
      cbn [map]. apply sublist_cons. exact Hsub.
    + specialize (IH (i + 1) n s2). destruct (scrape_each drv cfg (i + 1) n rest s2) as [s4 r4].
      destruct IH as (d & more & Hd & Hm & Hpre & Hall & Hsub).
      exists ((Print (ProcessingProperty i n (str_take 70 url)) :: dv) ++ d)%list, more.
      rewrite Hhead.
      split; [destruct r4; cbn [out]; rewrite Hd, Hdv, <- !app_assoc; reflexivity |].
      split; [destruct r4; cbn [properties]; rewrite Hm, Hprops; reflexivity |].
      split; [apply prefix_cons; exact Hpre |].
      split; [destruct r4; cbn [is_ok]; intros H; [f_equal; apply Hall; reflexivity | discriminate H] |].
      cbn [map]. apply sublist_cons. exact Hsub.
    + exists (Print (ProcessingProperty i n (str_take 70 url)) :: dv), [].
      change (visited (Print (ProcessingProperty i n (str_take 70 url)) :: dv)) with (visited dv).
      rewrite Hvis.
      split; [rewrite Hdv, <- !app_assoc; reflexivity |].
      split; [rewrite Hprops, app_nil_r; reflexivity |].
      split; [apply prefix_cons, prefix_nil |].
      split; [intros H; discriminate H |].
      apply sublist_nil_l.
Qed.

(** X10.  The next-page control is looked up under the three locators in
    the fixed order label, class, text, a later one only after every
    earlier one raised; when the last one raises too the error is reported
    and no next page follows; the control found is first scrolled into
    view.  On the last allowed page nothing is looked up at all. *)
Theorem next_control_locators_in_order s :
  let '(s', r) := next_page drv cfg s in
  exists d, out s' = (out s ++ d)%list /\
    if page s <? MAX_PAGES cfg then
      exists tried last,
        lookups d = (tried ++ [last])%list /\
        map fst (lookups d) = take (S (length tried)) NEXT_LOCATORS /\
        Forall (fun q => exists e, snd q = Raise e) tried /\
        match snd last with
        | Ok v =>
            exists el a, v = VElem el /\
              In (Call (ExecuteScript "arguments[0].scrollIntoView();" [el]) a) d
        | Raise e =>
            length tried = 2%nat /\ In (Print (ErrorNavigating (exn_msg e))) d /\
            r <> Ok Continue
        end
    else d = [] /\ r = Ok Break.
Proof.
  unfold next_page, find_next_button. unfold_run. steps.
  all: cbn [world out properties page fst snd outcome_map] in *.
  all: try match goal with
       | H : element_truthy _ = false |- _ => discriminate H
       end.
  all: eexists; (split; [rewrite <- ?app_assoc; cbn [app];
                         first [reflexivity | symmetry; apply app_nil_r] |]).
  all: try solve [split; reflexivity].
  all: first [ exists []; eexists; split; [reflexivity |]; split; [reflexivity |]
             | eexists [_]; eexists; split; [reflexivity |]; split; [reflexivity |]
             | eexists [_; _]; eexists; split; [reflexivity |]; split; [reflexivity |] ].
  all: split; [repeat constructor; eexists; reflexivity |].
  all: cbn [snd].
  all: first [ solve [do 2 eexists; split; [reflexivity | pick_in]]
             | solve [split; [reflexivity |]; split; [pick_in | discriminate]] ].
Qed.

End Links.

(** ** Further properties: what the walk requests and returns *)

(** Close a goal [quiet s s'] on an explicit final state. *)
Ltac solve_quiet :=
  unfold quiet; cbn [world out properties page];
  split; [reflexivity |
  eexists; split; [rewrite <- ?app_assoc; cbn [app];
                   first [reflexivity | symmetry; apply app_nil_r] |
                   repeat constructor]].

Section Requests.

Context {W E : Type}.
Variable drv : Browser W E.
Variable cfg : config.

Local Abbreviation state := (state W E).

Lemma quiet_refl (s : state) : quiet s s.
Proof. split; [reflexivity |]. exists []. split; [now rewrite app_nil_r | constructor]. Qed.

Lemma quiet_trans (s1 s2 s3 : state) : quiet s1 s2 -> quiet s2 s3 -> quiet s1 s3.
Proof.
  intros (Hp1 & d1 & Hd1 & Hf1) (Hp2 & d2 & Hd2 & Hf2).
  split; [congruence |]. exists (d1 ++ d2)%list. split.
  - rewrite Hd2, Hd1, app_assoc. reflexivity.
  - apply Forall_app; auto.
Qed.

Lemma advances_refl (s : state) : advances s s.
Proof.
  split; [exists []; split; [now rewrite app_nil_r | constructor] |].
  exists []. split; [now rewrite app_nil_r | constructor].
Qed.

Lemma advances_trans (s1 s2 s3 : state) : advances s1 s2 -> advances s2 s3 -> advances s1 s3.
Proof.
  intros ((m1 & Hm1 & Hw1) & d1 & Hd1 & Hf1) ((m2 & Hm2 & Hw2) & d2 & Hd2 & Hf2).
  split.
  - exists (m1 ++ m2)%list. split; [rewrite Hm2, Hm1, app_assoc; reflexivity |].
    apply Forall_app; auto.
  - exists (d1 ++ d2)%list. split; [rewrite Hd2, Hd1, app_assoc; reflexivity |].
    apply Forall_app; auto.
Qed.

Lemma quiet_advances (s s' : state) : quiet s s' -> advances s s'.
Proof.
  intros (Hp & Hd). split; [| exact Hd].
  exists []. split; [now rewrite app_nil_r | constructor].
Qed.

Lemma take_screenshot_quiet name s :
  let '(s', r) := take_screenshot drv cfg name s in quiet s s'.
Proof.
  unfold take_screenshot. unfold_run. steps.
  all: solve_quiet.
Qed.

Lemma scroll_page_quiet s :
  let '(s', r) := scroll_page drv cfg s in quiet s s'.
Proof.
  unfold scroll_page. unfold_run. steps.
  all: solve_quiet.
Qed.

Lemma find_cards_quiet s :
  let '(s', r) := find_cards drv s in quiet s s'.
Proof.
  unfold find_cards, try_method. unfold_run. steps.
  all: solve_quiet.
Qed.

Lemma report_no_cards_quiet s :
  let '(s', r) := report_no_cards drv cfg s in quiet s s'.
Proof.
  unfold report_no_cards. unfold_run. steps.
  all: solve_quiet.
Qed.

Lemma card_link_quiet card s :
  let '(s', r) := card_link drv card s in quiet s s'.
Proof.
  unfold card_link. unfold_run. steps.
  all: solve_quiet.
Qed.

Lemma collect_links_quiet cards : forall s,
  let '(s', r) := collect_links drv cards s in quiet s s'.
Proof.
  induction cards as [|card rest IH]; intros s.
  - apply quiet_refl.
  - cbn [collect_links]. unfold mbind, mret, M_bind, M_ret.
    pose proof (card_link_quiet card s) as H1.
    destruct (card_link drv card s) as [s1 [found|e]]; [| exact H1].
    specialize (IH s1).
    destruct (collect_links drv rest s1) as [s2 [more|e]]; eapply quiet_trans; eassumption.
Qed.

Lemma accept_cookies_quiet s :
  let '(s', r) := accept_cookies drv cfg s in quiet s s'.
Proof.
  unfold accept_cookies. unfold_run. steps.
  all: solve_quiet.
Qed.

Lemma next_page_quiet s :
  let '(s', r) := next_page drv cfg s in quiet s s'.
Proof.
  unfold next_page, find_next_button. unfold_run. steps.
  all: solve_quiet.
Qed.

Lemma page_error_quiet e s :
  let '(s', r) := page_error drv cfg e s in quiet s s'.
Proof.
  unfold page_error. unfold_run. steps.
  all: solve_quiet.
Qed.

(** A visit of an accepted link. *)
Lemma scrape_property_page_quiet url s :
  accepted (Some url) = true ->
  let '(s', r) := scrape_property_page drv cfg url s in
  quiet s s' /\
  match r with
  | Ok (Some rec) => well_formed rec
  | _ => True
  end.
Proof.
  intros Hacc.
  assert (Hq : let '(s', r) := scrape_property_page drv cfg url s in quiet s s').
  { revert Hacc. unfold scrape_property_page. unfold_run. intros Hacc.
    steps.
    all: unfold quiet; cbn [world out properties page]; (split; [reflexivity |]).
    all: eexists; (split; [rewrite <- ?app_assoc; cbn [app]; reflexivity |]).
    all: repeat (constructor; [first [reflexivity | exact Hacc] |]).
    all: constructor. }
  pose proof (scrape_property_page_cases drv cfg url s) as H.
  destruct (scrape_property_page drv cfg url s) as [s' r].
  split; [exact Hq |].
  destruct r as [[rec|]|e]; [| exact I | exact I].
  destruct H as (_ & _ & d & _ & _ & el & text & json & listing & fields & now
                 & _ & _ & _ & _ & _ & Hf & _ & ->).
  split; [eapply FIELDS_of; exact Hf |].
  exists url. split; [| exact Hacc].
  apply dict_lookup_app_l.
  destruct (property_fields_inv _ _ _ Hf)
    as (? & ? & ? & ? & ? & ? & ? & ? & ? & ? & ? & ? & _ & _ & _ & _ & _
        & _ & _ & _ & _ & _ & _ & _ & ->).
  reflexivity.
Qed.

Lemma unique_Forall (P : string -> Prop) links :
  Forall P links -> Forall P (unique links).
Proof.
  rewrite !Forall_forall. intros H x Hx. apply H.
  unfold unique in Hx. apply elem_of_elements in Hx.
  apply elem_of_list_to_set in Hx. exact Hx.
Qed.

Lemma scrape_each_advances links : forall i n s,
  Forall (fun h => accepted (Some h) = true) links ->
  let '(s', r) := scrape_each drv cfg i n links s in advances s s'.
Proof.
  induction links as [|url rest IH]; intros i n s Hall.
  - apply advances_refl.
  - inversion Hall as [|? ? Hacc Hrest]; subst.
    cbn [scrape_each]. unfold_run. cbn [world out properties page].
    match goal with
    | |- context [scrape_property_page drv cfg url ?s1] =>
        pose proof (scrape_property_page_quiet url s1 Hacc) as Hv;
        destruct (scrape_property_page drv cfg url s1) as [s2 r2];
        assert (H1 : quiet s s1) by solve_quiet
    end.
    destruct Hv as [Hv Hwf].
    pose proof (quiet_advances _ _ (quiet_trans _ _ _ H1 Hv)) as H2.
    destruct r2 as [[rec|]|e]; [destruct (truthy (PDict rec)) |..];
      cbn [world out properties page]; try exact H2.
    + match goal with
      | |- context [scrape_each drv cfg ?j n rest ?s3] =>
          specialize (IH j n s3 Hrest); destruct (scrape_each drv cfg j n rest s3) as [s4 r4];
          assert (H3 : advances s2 s3)
      end.
      { split; [exists [rec]; split; [reflexivity | constructor; [exact Hwf | constructor]] |].
        exists []. split; [now rewrite app_nil_r | constructor]. }
      destruct r4; eapply advances_trans; try exact IH; eapply advances_trans; eassumption.
    + specialize (IH (i + 1) n s2 Hrest).
      destruct (scrape_each drv cfg (i + 1) n rest s2) as [s4 r4].
      destruct r4; eapply advances_trans; eassumption.
    + specialize (IH (i + 1) n s2 Hrest).
      destruct (scrape_each drv cfg (i + 1) n rest s2) as [s4 r4].
      destruct r4; eapply advances_trans; eassumption.
Qed.

Lemma page_body_advances s :
  let '(s', r) := page_body drv cfg s in advances s s'.
Proof.
  unfold page_body. unfold mbind, mret, M_bind, M_ret, get_page, print, emit.
  cbn [world out properties page]. fold (announced cfg s).
  assert (H0 : quiet s (announced cfg s)) by (unfold announced; solve_quiet).
  pose proof (scroll_page_quiet (announced cfg s)) as H1.
  destruct (scroll_page drv cfg (announced cfg s)) as [s1 r1].
  pose proof (quiet_trans _ _ _ H0 H1) as H01. clear H0 H1.
  destruct r1 as [[]|e]; [| apply quiet_advances; exact H01].
  pose proof (find_cards_quiet s1) as H2.
  destruct (find_cards drv s1) as [s2 r2].
  pose proof (quiet_trans _ _ _ H01 H2) as H02. clear H01 H2.
  destruct r2 as [cards|e]; [| apply quiet_advances; exact H02].
  destruct cards as [|card cards]; cbn [is_empty].
  - pose proof (report_no_cards_quiet s2) as H3.
    destruct (report_no_cards drv cfg s2) as [s3 [[]|e]];
      apply quiet_advances; eapply quiet_trans; eassumption.
  - pose proof (collect_links_quiet (card :: cards) s2) as H3.
    destruct (collect_links_run drv (card :: cards) s2) as (s3 & hrefs & Hrun & Hacc & _).
    rewrite Hrun in *. pose proof (quiet_trans _ _ _ H02 H3) as H03. clear H02 H3.
    cbn [world out properties page].
    set (s4 := State (world s3) (out s3 ++ [Print (FoundUniqueUrls (length (unique hrefs)))])%list
                 (properties s3) (page s3)).
    assert (H04 : quiet s s4).
    { eapply quiet_trans; [exact H03 |]. unfold s4. solve_quiet. }
    pose proof (unique_Forall _ _ Hacc) as Hu.
    destruct (unique hrefs) as [|link links]; cbn [is_empty].
    + cbn [world out properties page].
      set (s5 := State (world s4) (out s4 ++ [Print NoValidLinks])%list (properties s4) (page s4)).
      assert (H05 : quiet s s5).
      { eapply quiet_trans; [exact H04 |]. unfold s5. solve_quiet. }
      pose proof (take_screenshot_quiet "no_valid_links" s5) as H6.
      destruct (take_screenshot drv cfg "no_valid_links" s5) as [s6 [file|e]];
        apply quiet_advances; eapply quiet_trans; eassumption.
    + pose proof (scrape_each_advances (link :: links) 1 (length (link :: links)) s4 Hu) as H5.
      destruct (scrape_each drv cfg 1 (length (link :: links)) (link :: links) s4) as [s5 r5].
      pose proof (advances_trans _ _ _ (quiet_advances _ _ H04) H5) as H05.
      destruct r5 as [[]|e]; [| exact H05].
      pose proof (next_page_quiet s5) as H6.
      destruct (next_page drv cfg s5) as [s6 r6].
      eapply advances_trans; [exact H05 | apply quiet_advances; exact H6].
Qed.

Lemma process_page_advances s :
  let '(s', r) := process_page drv cfg s in advances s s'.
Proof.
  unfold process_page, try_catch.
  pose proof (page_body_advances s) as Hb.
  destruct (page_body drv cfg s) as [s1 [c|e]]; [exact Hb |].
  pose proof (page_error_quiet e s1) as He.
  destruct (page_error drv cfg e s1) as [s' r].
  eapply advances_trans; [exact Hb | apply quiet_advances; exact He].
Qed.

Lemma pagination_advances fuel : forall s,
  let '(s', r) := pagination drv cfg fuel s in advances s s'.
Proof.
  induction fuel as [|fuel IH]; intros s.
  - cbn [pagination]. unfold mbind, mret, M_bind, M_ret, get_page.
    destruct (page s <=? MAX_PAGES cfg); apply advances_refl.
  - cbn [pagination]. unfold mbind, mret, M_bind, M_ret, get_page.
    destruct (page s <=? MAX_PAGES cfg); [| apply advances_refl].
    pose proof (process_page_advances s) as H1.
    destruct (process_page drv cfg s) as [s1 [[|]|e]]; try exact H1.
    specialize (IH s1). destruct (pagination drv cfg fuel s1) as [s2 r2].
    eapply advances_trans; eassumption.
Qed.

(** The walk, after it has asked for the search page. *)
Lemma scrape_search_results_walk fuel s :
  let '(s', r) := scrape_search_results drv cfg fuel s in
  exists a d,
    out s' = (out s ++ Print (NavigatingToSearch (SEARCH_URL cfg))
                    :: Call (Get (SEARCH_URL cfg)) a :: d)%list /\
    Forall (fun e => walk_event e = true) d /\
    match r with
    | Ok (Some results) => properties s' = results /\ Forall well_formed results
    | _ => True
    end.
Proof.
  unfold scrape_search_results, sleep.
  unfold mbind, mret, M_bind, M_ret, print, emit, driver_get, perform,
    set_properties, set_page, get_properties.
  cbn [world out properties page].
  destruct (navigate drv (SEARCH_URL cfg) (world s)) as [w [[]|e]] eqn:Hnav;
    cbn [outcome_map].
  2:{ do 2 eexists. split; [rewrite <- app_assoc; reflexivity |].
      split; [constructor | exact I]. }
  match goal with
  | |- context [take_screenshot drv cfg "initial_page" ?s1] =>
      set (s1' := s1);
      pose proof (take_screenshot_quiet "initial_page" s1') as H1;
      destruct (take_screenshot drv cfg "initial_page" s1') as [s2 r2]
  end.
  assert (Hlog : forall s3 : state, quiet s2 s3 ->
            exists a d, out s3 = (out s ++ Print (NavigatingToSearch (SEARCH_URL cfg))
                                       :: Call (Get (SEARCH_URL cfg)) a :: d)%list /\
                        Forall (fun e => walk_event e = true) d).
  { intros s3 H23. destruct (quiet_trans _ _ _ H1 H23) as (_ & d & Hd & Hf).
    do 2 eexists. split; [| exact Hf].
    rewrite Hd. unfold s1'. cbn [out]. rewrite <- !app_assoc. reflexivity. }
  destruct r2 as [file|e].
  2:{ destruct (Hlog s2 (quiet_refl _)) as (a & d & Hd & Hf).
      exists a, d. split; [exact Hd |]. split; [exact Hf | exact I]. }
  pose proof (accept_cookies_quiet s2) as H3.
  destruct (accept_cookies_run drv cfg s2) as (s3 & Hrun & _). rewrite Hrun in *.
  cbn [world out properties page].
  match goal with
  | |- context [pagination drv cfg fuel ?s4] =>
      set (s4' := s4);
      pose proof (pagination_advances fuel s4') as Hp;
      destruct (pagination drv cfg fuel s4') as [s5 r5]
  end.
  destruct Hp as ((more & Hmore & Hwf) & d5 & Hd5 & Hf5).
  unfold s4' in Hmore, Hd5. cbn [out properties] in Hmore, Hd5.
  assert (H25 : quiet s2 (State (world s5) (out s5) (properties s2) (page s5))).
  { split; [reflexivity |]. cbn [out]. destruct H3 as (_ & d3 & Hd3 & Hf3).
    exists (d3 ++ d5)%list. split; [rewrite Hd5, Hd3, app_assoc; reflexivity |].
    apply Forall_app; auto. }
  destruct (Hlog _ H25) as (a & d & Hd & Hf). cbn [out] in Hd.
  destruct r5 as [[|]|e]; cbn [world out properties page];
    exists a, d; (split; [exact Hd |]); (split; [exact Hf |]); try exact I.
  split; [reflexivity |]. rewrite Hmore. exact Hwf.
Qed.

(** *** What can escape *)

Lemma take_screenshot_raise name s :
  let '(s', r) := take_screenshot drv cfg name s in
  forall e, r = Raise e -> screenshot_raised drv e (out s').
Proof.
  unfold take_screenshot. unfold_run. steps.
  all: intros e' He'; try discriminate He'; injection He' as <-.
  all: cbn [world out properties page].
  all: do 4 eexists; split; [reflexivity | eassumption].
Qed.

Lemma page_error_raise e0 s :
  let '(s', r) := page_error drv cfg e0 s in
  forall e, r = Raise e -> screenshot_raised drv e (out s').
Proof.
  unfold page_error. unfold_run. steps.
  all: intros e' He'; try discriminate He'; injection He' as <-.
  all: cbn [world out properties page].
  all: do 4 eexists; split; [reflexivity | eassumption].
Qed.

Lemma process_page_raise s :
  let '(s', r) := process_page drv cfg s in
  forall e, r = Raise e -> screenshot_raised drv e (out s').
Proof.
  unfold process_page, try_catch.
  destruct (page_body drv cfg s) as [s1 [c|e0]]; [intros e He; discriminate He |].
  apply page_error_raise.
Qed.

Lemma pagination_raise fuel : forall s,
  let '(s', r) := pagination drv cfg fuel s in
  forall e, r = Raise e -> screenshot_raised drv e (out s').
Proof.
  induction fuel as [|fuel IH]; intros s.
  - cbn [pagination]. unfold mbind, mret, M_bind, M_ret, get_page.
    destruct (page s <=? MAX_PAGES cfg); intros e He; discriminate He.
  - cbn [pagination]. unfold mbind, mret, M_bind, M_ret, get_page.
    destruct (page s <=? MAX_PAGES cfg); [| intros e He; discriminate He].
    pose proof (process_page_raise s) as H1.
    destruct (process_page drv cfg s) as [s1 [[|]|e]].
    + apply IH.
    + intros e He; discriminate He.
    + intros e' He'. injection He' as <-. apply H1. reflexivity.
Qed.

End Requests.

Section WalkConduct.

Context {W E : Type}.
Variable drv : Browser W E.
Variable cfg : config.

(** X11.  Whatever the site answers, the walk asks for the search page
    first, and every page it loads after that is a link that passed the
    filter: a URL in which "/inmueble/" or "/proyecto/" occurs. *)
Theorem walk_loads_only_accepted_links fuel s :
  let '(s', r) := scrape_search_results drv cfg fuel s in
  exists a d,
    out s' = (out s ++ Print (NavigatingToSearch (SEARCH_URL cfg))
                    :: Call (Get (SEARCH_URL cfg)) a :: d)%list /\
    forall url a', In (Call (Get url) a') d -> accepted_url url.
Proof.
  pose proof (scrape_search_results_walk drv cfg fuel s) as H.
  destruct (scrape_search_results drv cfg fuel s) as [s' r].
  destruct H as (a & d & Hd & Hf & _).
  exists a, d. split; [exact Hd |].
  intros url a' Hin. rewrite List.Forall_forall in Hf.
  apply accepted_spec. exact (Hf _ Hin).
Qed.

(** X12.  Every record the walk returns has the twenty-two declared fields,
    in order, and under "url" a link that passed the filter; the list
    returned is the list of records the walk leaves in its state. *)
Theorem walk_returns_well_formed_records fuel s s' results :
  scrape_search_results drv cfg fuel s = (s', Ok (Some results)) ->
  properties s' = results /\
  Forall (fun rec => map fst rec = FIELDS /\
                     exists url, dict_lookup "url" rec = Some (PStr url) /\ accepted_url url)
         results.
Proof.
  intros Hrun.
  pose proof (scrape_search_results_walk drv cfg fuel s) as H.
  rewrite Hrun in H.
  destruct H as (a & d & _ & _ & Hprops & Hwf). split; [exact Hprops |].
  eapply Forall_impl; [exact Hwf |].
  intros rec (Hkeys & url & Hurl & Hacc). split; [exact Hkeys |].
  exists url. split; [exact Hurl | apply accepted_spec; exact Hacc].
Qed.

(** X13.  The cookie step never raises and touches neither the records nor
    the page number.  It reports that no dialog was found exactly when one
    of its requests raised, which includes the screenshot taken after the
    dialog was accepted; it reports the acceptance exactly when the click
    went through. *)
Theorem cookie_step_never_raises s :
  let '(s', r) := accept_cookies drv cfg s in
  r = Ok tt /\ properties s' = properties s /\ page s' = page s /\
  exists d, out s' = (out s ++ d)%list /\
    (In (Print NoCookieDialog) d <-> exists c e, In (Call c (Raise e)) d) /\
    (In (Print AcceptedCookies) d <-> exists el, In (Call (Click el) (Ok VUnit)) d).
Proof.
  unfold accept_cookies. unfold_run. steps.
  all: cbn [world out properties page fst snd outcome_map unit_value] in *.
  all: repeat match goal with u : unit |- _ => destruct u end.
  all: split; [reflexivity |]; split; [reflexivity |]; split; [reflexivity |].
  all: eexists; (split; [rewrite <- ?app_assoc; cbn [app]; reflexivity |]).
  all: split; split.
  all: try (intros _; solve [do 2 eexists; pick_in | eexists; pick_in | pick_in]).
  all: first [ solve [intros (c & e' & Hin); exfalso; only_one Hin]
             | solve [intros (el & Hin); exfalso; only_one Hin]
             | solve [intros Hin; exfalso; only_one Hin] ].
Qed.

(** X14.  An exception leaves the walk in two cases only: the search page
    could not be loaded, or a screenshot request raised it, and that
    request is then the last thing the walk did.  Every other failure is
    handled inside. *)
Theorem only_screenshot_failures_escape_the_walk fuel s :
  let '(s', r) := scrape_search_results drv cfg fuel s in
  forall e, r = Raise e ->
    (exists w, navigate drv (SEARCH_URL cfg) (world s) = (w, Raise e) /\
               out s' = (out s ++ [Print (NavigatingToSearch (SEARCH_URL cfg));
                                   Call (Get (SEARCH_URL cfg)) (Raise e)])%list) \/
    screenshot_raised drv e (out s').
Proof.
  unfold scrape_search_results, sleep.
  unfold mbind, mret, M_bind, M_ret, print, emit, driver_get, perform,
    set_properties, set_page, get_properties.
  cbn [world out properties page].
  destruct (navigate drv (SEARCH_URL cfg) (world s)) as [w [[]|e0]] eqn:Hnav;
    cbn [outcome_map].
  2:{ intros e He. injection He as <-. left. exists w. split; [reflexivity |].
      cbn [out]. rewrite <- app_assoc. reflexivity. }
  match goal with
  | |- context [take_screenshot drv cfg "initial_page" ?s1] =>
      pose proof (take_screenshot_raise drv cfg "initial_page" s1) as H1;
      destruct (take_screenshot drv cfg "initial_page" s1) as [s2 r2]
  end.
  destruct r2 as [file|e0].
  2:{ intros e He. injection He as <-. right. apply H1. reflexivity. }
  destruct (accept_cookies_run drv cfg s2) as (s3 & -> & _).
  cbn [world out properties page].
  match goal with
  | |- context [pagination drv cfg fuel ?s4] =>
      pose proof (pagination_raise drv cfg fuel s4) as Hp;
      destruct (pagination drv cfg fuel s4) as [s5 r5]
  end.
  destruct r5 as [[|]|e0]; cbn [world out properties page]; intros e He;
    try discriminate He.
  injection He as <-. right. apply Hp. reflexivity.
Qed.

End WalkConduct.

(** ** Further properties: the whole run *)

Section MainConduct.

Context {W E : Type}.
Variable drv : Browser W E.
Variable cfg : config.

Lemma quits_app (a b : list (event E)) : quits (a ++ b) = (quits a ++ quits b)%list.
Proof. unfold quits. apply omap_app. Qed.

Lemma quits_walk (d : list (event E)) :
  Forall (fun e => walk_event e = true) d -> quits d = [].
Proof.
  induction 1 as [|e d He _ IH]; [reflexivity |].
  unfold quits in *. cbn. rewrite IH.
  destruct e as [m|[] r]; try reflexivity. discriminate He.
Qed.

Lemma writes_app (a b : list (event E)) : writes (a ++ b) = (writes a ++ writes b)%list.
Proof. unfold writes. apply omap_app. Qed.

Lemma writes_walk (d : list (event E)) :
  Forall (fun e => walk_event e = true) d -> writes d = [].
Proof.
  induction 1 as [|e d He _ IH]; [reflexivity |].
  unfold writes in *. cbn. rewrite IH.
  destruct e as [m|[] r]; try reflexivity. discriminate He.
Qed.

Lemma last_cons_some {A} (x : A) l y : last l = Some y -> last (x :: l) = Some y.
Proof. destruct l; [discriminate | trivial]. Qed.

Lemma last_app_some {A} (l k : list A) y : last k = Some y -> last (l ++ k) = Some y.
Proof. intros H. rewrite last_app, H. reflexivity. Qed.

(** The log of a run, from the walk on. *)
Ltac walk_log fuel :=
  try match goal with
      | H : scrape_search_results drv cfg fuel ?s1 = _ |- _ =>
          let Hw := fresh "Hw" in
          let Hd := fresh "Hd" in
          let Hf := fresh "Hwalk" in
          let Hres := fresh "Hres" in
          let a := fresh "answer" in
          let dw := fresh "dwalk" in
          pose proof (scrape_search_results_walk drv cfg fuel s1) as Hw;
          rewrite H in Hw;
          destruct Hw as (a & dw & Hd & Hf & Hres); cbn [out] in Hd;
          rewrite <- ?app_assoc; cbn [app];
          rewrite Hd; clear Hd
      end;
  rewrite <- ?app_assoc; cbn [app].

(** X15.  The session is closed exactly once, as the last request of the
    run, when [init_driver] handed it over.  When starting fails, [main]
    raises at once and never asks to close the session, also when Chrome
    had come up and only the script that follows raised. *)
Theorem session_closed_once_unless_start_failed fuel s :
  let '(s', r) := main drv cfg fuel s in
  exists d, out s' = (out s ++ Print Starting :: d)%list /\
    ((exists e a, r = Raise e /\
        d = Call (StartChrome (chrome_arguments cfg)) a ::
            match a with
            | Ok _ => [Call (ExecuteScript HIDE_WEBDRIVER []) (Raise e)]
            | Raise _ => []
            end /\
        (a = Ok VUnit \/ a = Raise e)) \/
     (exists a, quits d = [a] /\
        In (Call (ExecuteScript HIDE_WEBDRIVER []) (Ok VUnit)) d /\
        match a with
        | Ok _ => last d = Some (Print BrowserClosed)
        | Raise e => last d = Some (Call Quit (Raise e)) /\ r = Raise e
        end)).
Proof.
  unfold main, init_driver. unfold_run. steps.
  all: cbn [world out properties page fst snd outcome_map unit_value] in *.
  all: walk_log fuel.
  all: eexists; (split; [reflexivity |]).
  all: try solve [left; eexists; exists (Ok VUnit);
                  split; [reflexivity |]; split; [reflexivity | left; reflexivity]].
  all: try solve [left; eexists; eexists (Raise _);
                  split; [reflexivity |]; split; [reflexivity | right; reflexivity]].
  all: pose proof (quits_walk dwalk Hwalk) as Hq; unfold quits in Hq |- *.
  all: right; eexists; split;
       [cbn [omap list_omap]; rewrite omap_app, Hq; reflexivity |].
  all: split; [pick_in |].
  all: cbn beta iota.
  all: try split; try reflexivity.
  all: repeat apply last_cons_some; apply last_app_some; reflexivity.
Qed.

(** X16.  With fuel for [MAX_PAGES] rounds, [main] either returns
    normally or raises what one of four requests raised: starting Chrome,
    the script of [init_driver], the screenshot of the error handler, or
    closing the session.  Every failure of the walk and of writing the
    output is absorbed. *)
Theorem main_absorbs_failures fuel s :
  (Z.to_nat (MAX_PAGES cfg) <= fuel)%nat ->
  let '(s', r) := main drv cfg fuel s in
  match r with
  | Ok result => result = Some tt
  | Raise e =>
      (exists w w', start_chrome drv (chrome_arguments cfg) w = (w', Raise e)) \/
      (exists w w', execute_script drv HIDE_WEBDRIVER [] w = (w', Raise e)) \/
      (exists file w w', snapshot_of cfg ["main_error"] file /\
                         save_screenshot drv file w = (w', Raise e)) \/
      (exists w w', quit drv w = (w', Raise e))
  end.
Proof.
  intros Hfuel.
  unfold main, init_driver. unfold_run. steps.
  all: cbn [world out properties page fst snd outcome_map unit_value] in *.
  all: try match goal with
       | H : scrape_search_results drv cfg ?f ?s1 = (_, Ok None) |- _ =>
           pose proof (scrape_search_results_run drv cfg f s1 Hfuel) as Hrun;
           rewrite H in Hrun; destruct Hrun as (Hne & _); destruct Hne; reflexivity
       end.
  all: repeat match goal with u : unit |- _ => destruct u end.
  all: try reflexivity.
  all: first
    [ solve [left; do 2 eexists; eassumption]
    | solve [right; left; do 2 eexists; eassumption]
    | solve [right; right; left; do 3 eexists; split; [snap | eassumption]]
    | solve [right; right; right; do 2 eexists; eassumption] ].
Qed.

(** X17.  When the records cannot be written, they are lost: the run
    reports the error, takes the screenshot of the error handler, reports
    nothing as saved, closes the session, and returns normally if neither
    the screenshot nor the closing raised. *)
Theorem unwritable_output_loses_the_records fuel s s1 s2 results w3 e :
  init_driver drv cfg
    (State (world s) (out s ++ [Print Starting])%list (properties s) (page s)) = (s1, Ok tt) ->
  scrape_search_results drv cfg fuel s1 = (s2, Ok (Some results)) ->
  is_empty results = false ->
  write_csv drv (OUTPUT_FILE cfg) (fieldnames_of results) results (world s2) = (w3, Raise e) ->
  let '(s', r) := main drv cfg fuel s in
  exists d file shot closing,
    out s' = (out s2 ++ Call (WriteCsv (OUTPUT_FILE cfg) (fieldnames_of results) results) (Raise e)
                     :: Print (MainError (exn_msg e)) :: d)%list /\
    (forall n path, ~ In (Print (Saved n path)) d) /\
    writes d = [] /\
    screenshots d = [(file, shot)] /\ snapshot_of cfg ["main_error"] file /\
    quits d = [closing] /\
    (is_ok shot = true -> is_ok closing = true -> r = Ok (Some tt)).
Proof.
  intros Hinit Hwalk Hne Hcsv.
  unfold main. unfold mbind at 1 2. unfold M_bind at 1 2.
  unfold print at 1, emit. rewrite Hinit.
  unfold try_finally, try_catch. unfold mbind at 1. unfold M_bind at 1. rewrite Hwalk.
  rewrite Hne. cbn [negb].
  unfold_run. cbn [world out properties page]. rewrite Hcsv.
  steps.
  all: cbn [world out properties page fst snd outcome_map unit_value] in *.
  all: rewrite <- ?app_assoc; cbn [app].
  all: do 4 eexists; (split; [reflexivity |]).
  all: split; [intros n path Hin; only_one Hin |].
  all: split; [reflexivity |].
  all: split; [reflexivity |].
  all: split; [snap |].
  all: split; [reflexivity |].
  all: cbn [is_ok]; intros Hs Hc; first [reflexivity | discriminate Hs | discriminate Hc].
Qed.

(** X18.  The output file is written at most once in a run, and then
    under the configured path, with the twenty-two declared fields as
    header and with all the records of the walk, of which there is at
    least one, each under these fields and with an accepted link as URL. *)
Theorem output_has_the_declared_columns fuel s :
  let '(s', r) := main drv cfg fuel s in
  exists d, out s' = (out s ++ d)%list /\
    (writes d = [] \/
     exists rows answer,
       writes d = [(OUTPUT_FILE cfg, FIELDS, rows, answer)] /\
       rows <> [] /\ rows = properties s' /\
       Forall (fun rec => map fst rec = FIELDS /\
                          exists url, dict_lookup "url" rec = Some (PStr url) /\
                                      accepted_url url) rows).
Proof.
  unfold main, init_driver. unfold_run. steps.
  all: cbn [world out properties page fst snd outcome_map unit_value] in *.
  all: walk_log fuel.
  all: eexists; (split; [reflexivity |]).
  all: try solve [left; reflexivity].
  all: pose proof (writes_walk dwalk Hwalk) as Hq; unfold writes in Hq |- *.
  all: cbn [omap list_omap]; rewrite omap_app, Hq; cbn [omap list_omap app].
  all: try solve [left; reflexivity].
  all: right; destruct Hres as [Hprops Hwf].
  all: match goal with
       | H : negb (is_empty ?l) = true |- _ =>
           destruct l as [|first rest]; [discriminate H |]
       end.
  all: do 2 eexists; split;
       [ cbn [fieldnames_of]; inversion Hwf as [|? ? [Hkeys _] _]; subst;
         rewrite Hkeys; reflexivity |].
  all: split; [discriminate |]; split; [symmetry; exact Hprops |].
  all: eapply Forall_impl; [exact Hwf |].
  all: intros rec (Hkeys & url & Hurl & Hacc); split; [exact Hkeys |].
  all: exists url; split; [exact Hurl | apply accepted_spec; exact Hacc].
Qed.

End MainConduct.



(** ** The program on the simulated sites *)

Import Sim.



(** The first of two links cannot be reached: the exception leaves the loop
    over the links before the second link is looked at. *)
Lemma first_link_down :
  scrape_each chrome shipped 1 2 [URL_A; URL_B] (boot site_down) =
  (State (Session site_down Blank)
     [Print (ProcessingProperty 1 2 URL_A); Print (ScrapingProperty URL_A);
      Call (Get URL_A) (Raise refused)]
     [] 0,
   Raise refused).
Proof.
  apply (navigation_error_escapes chrome shipped 1 2 URL_A [URL_B] (boot site_down)
           (Session site_down Blank) refused).
  reflexivity.
Defined.

(** On that site the walk returns no record, although the second property
    is a good one: it is never visited. *)
Example unreachable_property_ends_the_walk :
  snd (walk site_down) = Ok (Some []) /\
  ~ In (Print (ScrapingProperty URL_B)) (out (fst (walk site_down))).
Proof.
  split; [vm_compute; reflexivity |].
  vm_compute. intros H.
  repeat (destruct H as [H | H]; [discriminate H |]). exact H.
Qed.


Example walk_stops_at_the_limit :
  pages_of (out (fst (walk site_many))) = [1; 2; 3] /\
  match snd (walk site_many) with
  | Ok (Some records) => length records = 6%nat
  | _ => False
  end.
Proof. split; vm_compute; reflexivity. Qed.

(** The second result page has no cards: the walk ends there. *)
Example no_cards_ends_the_walk :
  pages_of (out (fst (walk site_short))) = [1; 2] /\
  List.filter stop_marker (out (fst (walk site_short))) = [Print NoCardsFound].
Proof. split; vm_compute; reflexivity. Qed.

(** The class selector finds the cards: the generic one is not tried. *)
Example class_selector_ends_the_chain :
  map fst (queries (out (fst (walk site_one)))) = [SEL_TESTID; SEL_CLASS].
Proof. vm_compute. reflexivity. Qed.

(** Duplicates and foreign links are dropped. *)
Example duplicate_links_are_dropped :
  unique ["https://m2/inmueble/b"; "https://m2/inmueble/a"; "https://m2/inmueble/b"] =
    ["https://m2/inmueble/a"; "https://m2/inmueble/b"] /\
  accepted (Some "https://m2/otro/c") = false /\
  accepted (Some "https://m2/proyecto/c") = true /\
  accepted (Some "") = false /\
  accepted None = false.
Proof. repeat split; vm_compute; reflexivity. Qed.


(** A carriage return is not a newline: it stays. *)
Example carriage_return_is_kept :
  replace_char newline space (String (Ascii.ascii_of_nat 13) (String newline "x")) =
  String (Ascii.ascii_of_nat 13) (String space "x").
Proof. reflexivity. Qed.


Example absent_description_is_an_ellipsis :
  dict_lookup "description" (record_of (snd (visit site_bare URL_A))) = Some (PStr "...").
Proof. vm_compute. reflexivity. Qed.

Example short_description_keeps_its_text :
  dict_lookup "description" (record_of (snd (visit site_one URL_A))) =
  Some (PStr "Luminoso y central...").
Proof. vm_compute. reflexivity. Qed.

(** A listing that holds an identifier and nothing else. *)
Lemma bare_listing_defaults :
  map fst (record_of (snd (visit site_bare URL_A))) = FIELDS /\
  (forall field path dflt,
      In (field, path, dflt) SOURCES -> omitted path (PDict [("id", PInt 7)]) ->
      dict_lookup field (record_of (snd (visit site_bare URL_A))) = Some (PStr dflt)) /\
  (forall k, is_ok (property_fields URL_A (PDict (remove_key k [("id", PInt 7)]))) = true).
Proof.
  apply (record_fields_default chrome shipped URL_A (boot site_bare)
           (fst (visit site_bare URL_A)) (record_of (snd (visit site_bare URL_A)))
           (out (fst (visit site_bare URL_A))) (Some "bare")
           (wrap (PDict [("id", PInt 7)])) [("id", PInt 7)]).
  - vm_compute. reflexivity.
  - reflexivity.
  - exists (Script "bare"). vm_compute. pick_in.
  - reflexivity.
  - reflexivity.
Defined.

Example bare_listing_record :
  snd (visit site_bare URL_A) =
  Ok (Some [("url", PStr URL_A); ("title", PStr ""); ("price", PStr "");
            ("currency", PStr "COP"); ("location", PStr ""); ("neighborhood", PStr "");
            ("city", PStr ""); ("property_type", PStr ""); ("area", PStr "");
            ("rooms", PStr ""); ("bathrooms", PStr ""); ("parking", PStr "");
            ("stratum", PStr ""); ("status", PStr ""); ("description", PStr "...");
            ("features", PStr ""); ("broker", PStr ""); ("broker_phone", PStr "");
            ("images", PStr ""); ("virtual_tour", PStr ""); ("property_id", PInt 7);
            ("scraped_at", PStr "2024-01-01 12:00:00")]).
Proof. vm_compute. reflexivity. Qed.

(** A present key of the wrong shape does make the entries fail. *)
Example misshapen_price_fails :
  is_ok (property_fields URL_A (PDict [("price", PInt 450000000)])) = false.
Proof. reflexivity. Qed.


(** A data script that is not JSON. *)
Example garbled_payload_is_skipped :
  snd (visit site_garbled URL_A) = Ok None /\
  In (Call (SaveScreenshot "debug_screenshots/property_error_20240101-120000.png")
        (Ok (VBool true)))
     (out (fst (visit site_garbled URL_A))).
Proof. split; vm_compute; [reflexivity | pick_in]. Qed.

(** Of two properties, one without listing data: one record. *)
Example one_of_two_is_kept :
  match snd (walk site_two) with
  | Ok (Some records) => length records = 1%nat
  | _ => False
  end /\
  failures (out (fst (walk site_two))) = 1%nat.
Proof. split; vm_compute; reflexivity. Qed.


Example missing_next_control_keeps_the_records :
  match snd (walk site_one) with
  | Ok (Some records) => length records = 1%nat
  | _ => False
  end /\
  pages_of (out (fst (walk site_one))) = [1] /\
  List.filter stop_marker (out (fst (walk site_one))) =
    [Print (ErrorNavigating "no such element")].
Proof. split; [| split]; vm_compute; reflexivity. Qed.

(** The whole program on the site with one property. *)
Lemma one_record_saved :
  main chrome shipped 3 (boot site_one) =
  (State (Session site_one (Detail 0 good))
     (out (fst (run site_one)))
     (properties (fst (walk site_one))) 1,
   Ok (Some tt)).
Proof.
  etransitivity.
  - apply (main_saves_and_reports_a_count chrome shipped 3 (boot site_one)
             (fst (init_driver chrome shipped
                     (State (Scraper.world (boot site_one))
                        (out (boot site_one) ++ [Print Starting])%list
                        (properties (boot site_one)) (page (boot site_one)))))
             (fst (scrape_search_results chrome shipped 3
                     (fst (init_driver chrome shipped
                             (State (Scraper.world (boot site_one))
                                (out (boot site_one) ++ [Print Starting])%list
                                (properties (boot site_one)) (page (boot site_one)))))))
             (properties (fst (walk site_one)))
             (Session site_one (Detail 0 good)) (Session site_one (Detail 0 good))).
    + vm_compute. reflexivity.
    + vm_compute. reflexivity.
    + vm_compute. reflexivity.
    + reflexivity.
  - vm_compute. reflexivity.
Defined.

(** C9 (as stated).  Two runs return the same value and add the same
    requests and messages of [main] to the log, yet differ in the links they
    discovered (1 and 2) and in the visits that failed (0 and 1): nothing
    [main] returns or reports determines those counts. *)
Lemma main_reports_no_counts :
  ~ exists summary : outcome (option unit) -> list (event elem) -> nat * nat,
      summary (snd (run site_one)) (own_report (out (fst (run site_one)))) =
        (links_discovered (out (fst (run site_one))), failures (out (fst (run site_one)))) /\
      summary (snd (run site_two)) (own_report (out (fst (run site_two)))) =
        (links_discovered (out (fst (run site_two))), failures (out (fst (run site_two)))).
Proof.
  intros (summary & H1 & H2).
  assert (Hr : snd (run site_one) = snd (run site_two)) by (vm_compute; reflexivity).
  assert (Ho : own_report (out (fst (run site_one))) = own_report (out (fst (run site_two))))
    by (vm_compute; reflexivity).
  rewrite Hr, Ho, H2 in H1. vm_compute in H1. discriminate H1.
Qed.

Example report_of_a_run :
  own_report (out (fst (run site_two))) =
  [Print Starting;
   Call (StartChrome (chrome_arguments shipped)) (Ok VUnit);
   Call (WriteCsv (OUTPUT_FILE shipped) FIELDS (properties (fst (walk site_two)))) (Ok VUnit);
   Print (Saved 1 (OUTPUT_FILE shipped));
   Call Quit (Ok VUnit);
   Print BrowserClosed].
Proof. vm_compute. reflexivity. Qed.

(** ** The further properties on the simulated sites *)

(** The images and the features of the sample listing. *)
Lemma sample_images_field :
  forallb image_entry [PDict [("url", PStr "https://img/1.jpg")]; PDict []] = true /\
  dict_lookup "images" (record_of (snd (visit site_one URL_A))) =
    Some (PStr (String.concat "; "
                  (omap image_url [PDict [("url", PStr "https://img/1.jpg")]; PDict []]))).
Proof.
  apply (images_are_the_nonempty_urls chrome shipped URL_A (boot site_one)
           (fst (visit site_one URL_A)) (record_of (snd (visit site_one URL_A)))
           (out (fst (visit site_one URL_A))) (Some "flat") (wrap flat_listing) flat_items
           [PDict [("url", PStr "https://img/1.jpg")]; PDict []]).
  - vm_compute. reflexivity.
  - reflexivity.
  - exists (Script "flat"). vm_compute. pick_in.
  - reflexivity.
  - reflexivity.
  - reflexivity.
Defined.

Example sample_images_text :
  dict_lookup "images" (record_of (snd (visit site_one URL_A))) =
  Some (PStr "https://img/1.jpg").
Proof. vm_compute. reflexivity. Qed.

(** An image entry that is not a dict, or whose url is a number, leaves
    no record. *)
Example odd_image_entries_fail :
  is_ok (property_fields URL_A (PDict [("images", PList [PStr "https://img/1.jpg"])])) = false /\
  is_ok (property_fields URL_A (PDict [("images", PList [PDict [("url", PInt 7)]])])) = false /\
  is_ok (property_fields URL_A (PDict [("images", PList [PDict [("url", PInt 0)]])])) = true.
Proof. repeat split. Qed.

Lemma sample_features_field :
  exists fs, [PStr "Balcon"; PStr "Ascensor"] = map PStr fs /\
             dict_lookup "features" (record_of (snd (visit site_one URL_A))) =
               Some (PStr (String.concat ", " fs)).
Proof.
  apply (features_are_joined chrome shipped URL_A (boot site_one)
           (fst (visit site_one URL_A)) (record_of (snd (visit site_one URL_A)))
           (out (fst (visit site_one URL_A))) (Some "flat") (wrap flat_listing) flat_items
           [PStr "Balcon"; PStr "Ascensor"]).
  - vm_compute. reflexivity.
  - reflexivity.
  - exists (Script "flat"). vm_compute. pick_in.
  - reflexivity.
  - reflexivity.
  - reflexivity.
Defined.

Example sample_features_text :
  dict_lookup "features" (record_of (snd (visit site_one URL_A))) =
  Some (PStr "Balcon, Ascensor").
Proof. vm_compute. reflexivity. Qed.

(** Features given as one string are joined character by character. *)
Example features_as_a_string :
  (f ← property_fields URL_A (PDict [("features", PStr "Gym")]);
   Ok (dict_lookup "features" f)) = Ok (Some (PStr "G, y, m")).
Proof. reflexivity. Qed.

Lemma sample_values_copied :
  dict_lookup "url" (record_of (snd (visit site_one URL_A))) = Some (PStr URL_A) /\
  forall field path v,
    In (field, path) COPIED -> reach path (PDict flat_items) = Some v ->
    dict_lookup field (record_of (snd (visit site_one URL_A))) = Some v.
Proof.
  apply (present_values_are_copied chrome shipped URL_A (boot site_one)
           (fst (visit site_one URL_A)) (record_of (snd (visit site_one URL_A)))
           (out (fst (visit site_one URL_A))) (Some "flat") (wrap flat_listing) flat_items).
  - vm_compute. reflexivity.
  - reflexivity.
  - exists (Script "flat"). vm_compute. pick_in.
  - reflexivity.
  - reflexivity.
Defined.

(** The price is copied as the number it is. *)
Example sample_price_is_a_number :
  dict_lookup "price" (record_of (snd (visit site_one URL_A))) = Some (PInt 450000000).
Proof. vm_compute. reflexivity. Qed.

Lemma sample_listing_shape :
  (forall key v, In key ["price"; "location"; "broker"] ->
                 dict_lookup key flat_items = Some v -> is_dict v = true) /\
  (forall v, dict_lookup "description" flat_items = Some v -> is_str v = true) /\
  (forall loc key v, dict_lookup "location" flat_items = Some (PDict loc) ->
                     In key ["neighborhood"; "city"] ->
                     dict_lookup key loc = Some v -> is_dict v = true).
Proof.
  apply (records_need_the_expected_shape chrome shipped URL_A (boot site_one)
           (fst (visit site_one URL_A)) (record_of (snd (visit site_one URL_A)))
           (out (fst (visit site_one URL_A))) (Some "flat") (wrap flat_listing) flat_items).
  - vm_compute. reflexivity.
  - reflexivity.
  - exists (Script "flat"). vm_compute. pick_in.
  - reflexivity.
  - reflexivity.
Defined.

(** The records of a walk over two properties, one of them without
    listing data. *)
Lemma sample_walk_records :
  properties (fst (walk site_two)) = properties (fst (walk site_two)) /\
  Forall (fun rec => map fst rec = FIELDS /\
                     exists url, dict_lookup "url" rec = Some (PStr url) /\ accepted_url url)
         (properties (fst (walk site_two))).
Proof.
  apply (walk_returns_well_formed_records chrome shipped 3 (boot site_two)
           (fst (walk site_two)) (properties (fst (walk site_two)))).
  vm_compute. reflexivity.
Defined.

Example sample_walk_keeps_one :
  length (properties (fst (walk site_two))) = 1%nat.
Proof. vm_compute. reflexivity. Qed.

(** A run on a healthy site returns normally. *)
Lemma sample_run_returns :
  let '(s', r) := main chrome shipped 3 (boot site_one) in
  match r with
  | Ok result => result = Some tt
  | Raise e =>
      (exists w w', start_chrome chrome (chrome_arguments shipped) w = (w', Raise e)) \/
      (exists w w', execute_script chrome HIDE_WEBDRIVER [] w = (w', Raise e)) \/
      (exists file w w', snapshot_of shipped ["main_error"] file /\
                         save_screenshot chrome file w = (w', Raise e)) \/
      (exists w w', quit chrome w = (w', Raise e))
  end.
Proof.
  apply (main_absorbs_failures chrome shipped 3 (boot site_one)).
  vm_compute. lia.
Defined.

(** A run that cannot write its output. *)
Lemma sample_unwritable_output :
  let '(s', r) := main read_only shipped 3 (boot site_one) in
  exists d file shot closing,
    out s' = (out (fst (scrape_search_results read_only shipped 3
                          (fst (init_driver read_only shipped
                                  (State (Scraper.world (boot site_one))
                                     (out (boot site_one) ++ [Print Starting])%list
                                     (properties (boot site_one)) (page (boot site_one)))))))
              ++ Call (WriteCsv (OUTPUT_FILE shipped) FIELDS
                         (properties (fst (main read_only shipped 3 (boot site_one)))))
                      (Raise (Exn OSError "[Errno 13] Permission denied"))
                 :: Print (MainError "[Errno 13] Permission denied") :: d)%list /\
    (forall n path, ~ In (Print (Saved n path)) d) /\
    writes d = [] /\
    screenshots d = [(file, shot)] /\ snapshot_of shipped ["main_error"] file /\
    quits d = [closing] /\
    (is_ok shot = true -> is_ok closing = true -> r = Ok (Some tt)).
Proof.
  apply (unwritable_output_loses_the_records read_only shipped 3 (boot site_one)
           (fst (init_driver read_only shipped
                   (State (Scraper.world (boot site_one))
                      (out (boot site_one) ++ [Print Starting])%list
                      (properties (boot site_one)) (page (boot site_one)))))
           (fst (scrape_search_results read_only shipped 3
                   (fst (init_driver read_only shipped
                           (State (Scraper.world (boot site_one))
                              (out (boot site_one) ++ [Print Starting])%list
                              (properties (boot site_one)) (page (boot site_one)))))))
           (properties (fst (main read_only shipped 3 (boot site_one))))
           (Scraper.world (fst (main read_only shipped 3 (boot site_one))))
           (Exn OSError "[Errno 13] Permission denied")).
  - vm_compute. reflexivity.
  - vm_compute. reflexivity.
  - vm_compute. reflexivity.
  - vm_compute. reflexivity.
Defined.

Example unwritable_output_run :
  snd (main read_only shipped 3 (boot site_one)) = Ok (Some tt) /\
  own_report (out (fst (main read_only shipped 3 (boot site_one)))) =
  [Print Starting;
   Call (StartChrome (chrome_arguments shipped)) (Ok VUnit);
   Call (WriteCsv (OUTPUT_FILE shipped) FIELDS
           (properties (fst (main read_only shipped 3 (boot site_one)))))
        (Raise (Exn OSError "[Errno 13] Permission denied"));
   Print (MainError "[Errno 13] Permission denied");
   Call Quit (Ok VUnit);
   Print BrowserClosed].
Proof. split; vm_compute; reflexivity. Qed.

(** Chrome comes up, the script of [init_driver] raises: the run raises
    and the session is never closed. *)
Example started_session_is_left_open :
  snd (main stuck shipped 3 (boot site_one)) = Raise (Exn WebDriverException "javascript error") /\
  out (fst (main stuck shipped 3 (boot site_one))) =
  [Print Starting;
   Call (StartChrome (chrome_arguments shipped)) (Ok VUnit);
   Call (ExecuteScript HIDE_WEBDRIVER []) (Raise (Exn WebDriverException "javascript error"))] /\
  quits (out (fst (main stuck shipped 3 (boot site_one)))) = [].
Proof. repeat split; vm_compute; reflexivity. Qed.

(** The walks of the examples load the search page and accepted links. *)
Example sample_walk_loads :
  visited (out (fst (walk site_two))) = [SEARCH_URL shipped; URL_A; URL_B] \/
  visited (out (fst (walk site_two))) = [SEARCH_URL shipped; URL_B; URL_A].
Proof. vm_compute. first [left; reflexivity | right; reflexivity]. Qed.
